(** * cryptobot-go: webhook verification, request encoding and validation

    A shallow embedding of the Go package [cryptobot] (client of the Crypto
    Pay API) and the properties of its webhook verifier, of its list-field
    encoding, of its response envelope handling and of its validation rules.

    Go values are modelled as follows.
    - [string] is a sequence of bytes: Rocq's [string]; [len] counts bytes.
    - [[]byte] is [list byte].
    - [int64] is [Z]; the code only compares and prints such values.
    - [error] is the inductive [error] below, the interface value ([nil] or
      an error) is [option error], and a Go result [(T, error)] is a pair.
    - slices are lists: [append] adds at the end, [make([]T, n)] is [n]
      zero values.
    - [http.Header] is a finite map from canonical keys to lists of values.
    - effects (reading a body, calling encoding/json, sending a request) are
      recorded in a trace threaded through the [IO] monad. *)

From Stdlib Require Import ZArith List String Ascii Bool Lia.
From Stdlib Require Import Strings.Byte.
From stdpp Require Import base option gmap strings.
Import ListNotations.

Set Warnings "-register-all".

Local Open Scope Z_scope.
Local Open Scope string_scope.
Local Open Scope list_scope.

(** ** Bytes and strings *)

Definition byte_to_Z (b : byte) : Z := Z.of_N (Byte.to_N b).

Definition byte_of_Z (z : Z) : byte :=
  match Byte.of_N (Z.to_N (z mod 256)) with
  | Some b => b
  | None => x00
  end.

(** [[]byte(s)] and [string(b)]. *)
Definition bytes_of_string (s : string) : list byte := list_byte_of_string s.
Definition string_of_bytes (b : list byte) : string := string_of_list_byte b.

(** [len(s)] for a Go string. *)
Definition len (s : string) : Z := Z.of_nat (String.length s).

(** ** crypto/sha256 (FIPS 180-4), on 32-bit words held in [Z] *)

Module sha256.

Definition w32 (x : Z) : Z := x mod 2 ^ 32.
Definition add32 (x y : Z) : Z := w32 (x + y).
Definition rotr (n x : Z) : Z :=
  Z.lor (Z.shiftr x n) (w32 (Z.shiftl x (32 - n))).
Definition not32 (x : Z) : Z := Z.lxor x 0xffffffff.

Definition Ch (x y z : Z) : Z := Z.lxor (Z.land x y) (Z.land (not32 x) z).
Definition Maj (x y z : Z) : Z :=
  Z.lxor (Z.lxor (Z.land x y) (Z.land x z)) (Z.land y z).
Definition Sigma0 (x : Z) : Z := Z.lxor (Z.lxor (rotr 2 x) (rotr 13 x)) (rotr 22 x).
Definition Sigma1 (x : Z) : Z := Z.lxor (Z.lxor (rotr 6 x) (rotr 11 x)) (rotr 25 x).
Definition sigma0 (x : Z) : Z := Z.lxor (Z.lxor (rotr 7 x) (rotr 18 x)) (Z.shiftr x 3).
Definition sigma1 (x : Z) : Z := Z.lxor (Z.lxor (rotr 17 x) (rotr 19 x)) (Z.shiftr x 10).

(** The round constants are the first 32 bits of the fractional parts of the
    cube roots of the first 64 primes, the initial state those of the square
    roots of the first 8. *)
Definition primes : list Z :=
  [2; 3; 5; 7; 11; 13; 17; 19; 23; 29; 31; 37; 41; 43; 47; 53; 59; 61; 67; 71; 73; 79;
   83; 89; 97; 101; 103; 107; 109; 113; 127; 131; 137; 139; 149; 151; 157; 163; 167;
   173; 179; 181; 191; 193; 197; 199; 211; 223; 227; 229; 233; 239; 241; 251; 257;
   263; 269; 271; 277; 281; 283; 293; 307; 311].

(** The integer cube root of [x], found bit by bit from [2 ^ bits] down. *)
Fixpoint cube_root (bits : nat) (x acc : Z) : Z :=
  match bits with
  | O => acc
  | S bits' =>
      let c := acc + 2 ^ Z.of_nat bits' in
      if (c * c * c <=? x)%Z then cube_root bits' x c else cube_root bits' x acc
  end.

Definition K : list Z :=
  Eval vm_compute in map (fun p => w32 (cube_root 36 (p * 2 ^ 96) 0)) primes.

Definition H0 : list Z :=
  Eval vm_compute in map (fun p => w32 (Z.sqrt (p * 2 ^ 64))) (firstn 8 primes).

(** Big-endian bytes of a word and back. *)
Definition be_bytes (n : nat) (x : Z) : list Z :=
  map (fun i => Z.land (Z.shiftr x (8 * Z.of_nat i)) 0xff) (rev (seq 0 n)).
Definition be_word (bs : list Z) : Z :=
  fold_left (fun acc b => Z.lor (Z.shiftl acc 8) b) bs 0.

(** Padding: the bit 1, zeros up to 56 modulo 64, the length in bits on
    eight bytes. *)
Definition pad (msg : list Z) : list Z :=
  let l := Z.of_nat (length msg) in
  let k := (55 - l) mod 64 in
  msg ++ [0x80] ++ repeat 0 (Z.to_nat k) ++ be_bytes 8 (8 * l).

Fixpoint chunks (fuel n : nat) {A} (l : list A) : list (list A) :=
  match fuel with
  | O => []
  | S fuel' =>
      match l with
      | [] => []
      | _ => firstn n l :: chunks fuel' n (skipn n l)
      end
  end.

(** The message schedule, most recent word first. *)
Fixpoint schedule (n : nat) (ws : list Z) : list Z :=
  match n with
  | O => ws
  | S n' =>
      let x := add32 (add32 (sigma1 (nth 1 ws 0)) (nth 6 ws 0))
                     (add32 (sigma0 (nth 14 ws 0)) (nth 15 ws 0)) in
      schedule n' (x :: ws)
  end.

Definition round (st : list Z) (kw : Z * Z) : list Z :=
  match st with
  | [a; b; c; d; e; f; g; h] =>
      let t1 := add32 (add32 (add32 h (Sigma1 e)) (add32 (Ch e f g) (fst kw))) (snd kw) in
      let t2 := add32 (Sigma0 a) (Maj a b c) in
      [add32 t1 t2; a; b; c; add32 d t1; e; f; g]
  | _ => st
  end.

Definition block (st : list Z) (blk : list Z) : list Z :=
  let w16 := map be_word (chunks 16 4 blk) in
  let ws := rev (schedule 48 (rev w16)) in
  let st' := fold_left round (combine K ws) st in
  map (fun p => add32 (fst p) (snd p)) (combine st st').

Definition digest (msg : list Z) : list Z :=
  let p := pad msg in
  let st := fold_left block (chunks (length p) 64 p) H0 in
  concat (map (be_bytes 4) st).

Definition BlockSize : nat := 64.

(** [sha256.Sum256(data)]. *)
Definition Sum256 (data : list byte) : list byte :=
  map byte_of_Z (digest (map byte_to_Z data)).

End sha256.

(** ** crypto/hmac with SHA-256 (RFC 2104) *)

Module hmac.

(** The state of [hmac.New(sha256.New, key)]: the key and what was
    written so far. *)
Record t := { key : list byte; written : list byte }.

Definition New (k : list byte) : t := {| key := k; written := [] |}.

Definition block_key (k : list byte) : list Z :=
  let k' := if (sha256.BlockSize <? length k)%nat then sha256.Sum256 k else k in
  let kz := map byte_to_Z k' in
  kz ++ repeat 0 (sha256.BlockSize - length kz).

Definition Sum (h : t) (b : list byte) : list byte :=
  let k := block_key (key h) in
  let ipad := map (fun x => Z.lxor x 0x36) k in
  let opad := map (fun x => Z.lxor x 0x5c) k in
  let inner := sha256.digest (ipad ++ map byte_to_Z (written h)) in
  b ++ map byte_of_Z (sha256.digest (opad ++ inner)).

End hmac.

(** [fmt.Sprintf("%x", b)] for a byte slice: two lowercase hexadecimal
    digits per byte. *)
Definition hex_digit (z : Z) : ascii :=
  nth (Z.to_nat z) (list_ascii_of_string "0123456789abcdef") "0"%char.

Fixpoint fmt_Sprintf_x (b : list byte) : string :=
  match b with
  | [] => EmptyString
  | c :: b' =>
      let z := byte_to_Z c in
      String (hex_digit (z / 16)) (String (hex_digit (z mod 16)) (fmt_Sprintf_x b'))
  end.


(** ** Errors

    [errors.New], [fmt.Errorf] with a wrapping verb, [errors.Join], and the
    errors that come out of the standard library ([io], [net/http],
    [net/url], [encoding/json]), which the code only passes on. *)

Inductive error : Type :=
| errors_New (text : string)
| fmt_Errorf (format : string) (wrapped : error)
| errors_Join (errs : list error)
| lib_error (text : string).

(** [append(s, x)] and [make([]string, n)]. *)
Definition append {A} (s : list A) (x : A) : list A := s ++ [x].
Definition make_strings (n : nat) : list string := repeat "" n.

(** [strings.Join(elems, sep)]. *)
Fixpoint strings_Join (elems : list string) (sep : string) : string :=
  match elems with
  | [] => ""
  | [x] => x
  | x :: rest => x ++ sep ++ strings_Join rest sep
  end.

(** [strconv.FormatInt(i, 10)]. *)
Fixpoint digits (fuel : nat) (p : Z) (acc : string) : string :=
  match fuel with
  | O => acc
  | S fuel' =>
      let acc' := String (ascii_of_nat (48 + Z.to_nat (p mod 10))) acc in
      if (p <? 10)%Z then acc' else digits fuel' (p / 10) acc'
  end.

Definition strconv_FormatInt (i : Z) : string :=
  if (i <? 0)%Z then "-" ++ digits (S (Z.to_nat (Z.log2 (- i)))) (- i) ""
  else digits (S (Z.to_nat (Z.log2 i))) i "".

(** ** encoding/json, as far as the package drives it

    A struct is encoded field by field in declaration order under the key of
    its tag; a field tagged [omitempty] is left out when its value is empty
    (false, 0, the empty string). The bytes themselves are the business of
    the library. *)

Inductive JSON : Type :=
| JString (s : string)
| JNumber (n : Z)
| JBool (b : bool)
| JObject (fields : list (string * JSON)).

Record field := { key : string; omitempty : bool; value : JSON }.

Definition isEmptyValue (v : JSON) : bool :=
  match v with
  | JString s => (len s =? 0)%Z
  | JNumber n => (n =? 0)%Z
  | JBool b => negb b
  | JObject _ => false
  end.

Fixpoint encode_fields (fs : list field) : list (string * JSON) :=
  match fs with
  | [] => []
  | f :: fs' =>
      if omitempty f && isEmptyValue (value f) then encode_fields fs'
      else (key f, value f) :: encode_fields fs'
  end.

Definition encode_struct (fs : list field) : JSON := JObject (encode_fields fs).

(** The value transmitted under a key of an encoded object, if any. *)
Fixpoint assoc (k : string) (kvs : list (string * JSON)) : option JSON :=
  match kvs with
  | [] => None
  | (k', v) :: kvs' => if String.eqb k k' then Some v else assoc k kvs'
  end.

Definition wire_field (k : string) (j : JSON) : option JSON :=
  match j with
  | JObject kvs => assoc k kvs
  | _ => None
  end.

(** ** Domain types (named string types and their constants) *)

Module types.
Definition CurrencyType := string.
Definition CryptoAsset := string.
Definition CurrencyCode := string.
Definition InvoiceStatus := string.
Definition ButtonName := string.
Definition CheckStatus := string.
Definition TransferStatus := string.
Definition updateType := string.
End types.

Definition Crypto : types.CurrencyType := "crypto".
Definition Fiat : types.CurrencyType := "fiat".

Definition USDT : types.CryptoAsset := "USDT".
Definition TON : types.CryptoAsset := "TON".
Definition BTC : types.CryptoAsset := "BTC".
Definition ETH : types.CryptoAsset := "ETH".
Definition LTC : types.CryptoAsset := "LTC".
Definition BNB : types.CryptoAsset := "BNB".
Definition TRX : types.CryptoAsset := "TRX".
Definition USDC : types.CryptoAsset := "USDC".

Definition USD : types.CurrencyCode := "USD".
Definition EUR : types.CurrencyCode := "EUR".

Definition ViewItem : types.ButtonName := "viewItem".
Definition OpenChannel : types.ButtonName := "openChannel".

(** ** Structs; each lives in a module of its name, with its zero value *)

Module Invoice.
Record t := {
  ID : Z;
  Hash : string;
  CurrencyType : types.CurrencyType;
  CryptoAsset : types.CryptoAsset;
  AcceptedCryptoAssets : list types.CryptoAsset;
  Fiat : types.CurrencyCode;
  Amount : string;
  PaidAsset : types.CryptoAsset;
  PaidAmount : string;
  PaidFiatRate : string;
  FeeAsset : string;
  FeeAmount : Z;
  BotInvoiceURL : string;
  MiniAppInvoiceURL : string;
  WebAppInvoiceURL : string;
  Description : string;
  Status : types.InvoiceStatus;
  CreatedAt : string;
  PaidUSDRate : string;
  AllowComments : bool;
  AllowAnonymous : bool;
  ExpirationDate : string;
  PaidAt : string;
  PaidAnonymously : bool;
  Comment : string;
  HiddenMessage : string;
  Payload : string;
  PaidBtnName : types.ButtonName;
  PaidBtnUrl : string
}.
Definition zero : t :=
  {| ID := 0; Hash := ""; CurrencyType := ""; CryptoAsset := "";
     AcceptedCryptoAssets := []; Fiat := ""; Amount := ""; PaidAsset := "";
     PaidAmount := ""; PaidFiatRate := ""; FeeAsset := ""; FeeAmount := 0;
     BotInvoiceURL := ""; MiniAppInvoiceURL := ""; WebAppInvoiceURL := "";
     Description := ""; Status := ""; CreatedAt := ""; PaidUSDRate := "";
     AllowComments := false; AllowAnonymous := false; ExpirationDate := "";
     PaidAt := ""; PaidAnonymously := false; Comment := "";
     HiddenMessage := ""; Payload := ""; PaidBtnName := ""; PaidBtnUrl := "" |}.
End Invoice.

Module NewInvoice.
Record t := {
  CurrencyType : types.CurrencyType;
  CryptoAsset : types.CryptoAsset;
  Fiat : types.CurrencyCode;
  AcceptedCryptoAssets : list types.CryptoAsset;
  Amount : string;
  Description : string;
  HiddenMessage : string;
  PaidBtnName : types.ButtonName;
  PaidBtnUrl : string;
  Payload : string;
  AllowComments : bool;
  AllowAnonymous : bool;
  ExpiresIn : Z
}.
Definition zero : t :=
  {| CurrencyType := ""; CryptoAsset := ""; Fiat := "";
     AcceptedCryptoAssets := []; Amount := ""; Description := "";
     HiddenMessage := ""; PaidBtnName := ""; PaidBtnUrl := ""; Payload := "";
     AllowComments := false; AllowAnonymous := false; ExpiresIn := 0 |}.
End NewInvoice.

Module tempNewInvoice.
Record t := {
  CurrencyType : types.CurrencyType;
  CryptoAsset : types.CryptoAsset;
  Fiat : types.CurrencyCode;
  AcceptedCryptoAssets : string;
  Amount : string;
  Description : string;
  HiddenMessage : string;
  PaidBtnName : types.ButtonName;
  PaidBtnUrl : string;
  Payload : string;
  AllowComments : bool;
  AllowAnonymous : bool;
  ExpiresIn : Z
}.
(** The struct tags. *)
Definition Marshal (v : t) : JSON :=
  encode_struct
    [ {| key := "currency_type"; omitempty := false; value := JString (CurrencyType v) |};
      {| key := "asset"; omitempty := true; value := JString (CryptoAsset v) |};
      {| key := "fiat"; omitempty := true; value := JString (Fiat v) |};
      {| key := "accepted_assets"; omitempty := true; value := JString (AcceptedCryptoAssets v) |};
      {| key := "amount"; omitempty := false; value := JString (Amount v) |};
      {| key := "description"; omitempty := true; value := JString (Description v) |};
      {| key := "hidden_message"; omitempty := true; value := JString (HiddenMessage v) |};
      {| key := "paid_btn_name"; omitempty := true; value := JString (PaidBtnName v) |};
      {| key := "paid_btn_url"; omitempty := true; value := JString (PaidBtnUrl v) |};
      {| key := "payload"; omitempty := true; value := JString (Payload v) |};
      {| key := "allow_comments"; omitempty := false; value := JBool (AllowComments v) |};
      {| key := "allow_anonymous"; omitempty := false; value := JBool (AllowAnonymous v) |};
      {| key := "expires_in"; omitempty := true; value := JNumber (ExpiresIn v) |} ].
End tempNewInvoice.

Module InvoiceOptions.
Record t := {
  CryptoAsset : types.CryptoAsset;
  Fiat : types.CurrencyCode;
  InvoiceIDs : list Z;
  Status : types.InvoiceStatus;
  Offset : Z;
  Count : Z
}.
Definition zero : t :=
  {| CryptoAsset := ""; Fiat := ""; InvoiceIDs := []; Status := ""; Offset := 0; Count := 0 |}.
End InvoiceOptions.

Module tempInOps.
Record t := {
  CryptoAsset : string;
  FiatCurrency : string;
  InvoiceIDs : string;
  Status : string;
  Offset : Z;
  Count : Z
}.
Definition Marshal (v : t) : JSON :=
  encode_struct
    [ {| key := "asset"; omitempty := true; value := JString (CryptoAsset v) |};
      {| key := "fiat"; omitempty := true; value := JString (FiatCurrency v) |};
      {| key := "invoice_ids"; omitempty := true; value := JString (InvoiceIDs v) |};
      {| key := "status"; omitempty := true; value := JString (Status v) |};
      {| key := "offset"; omitempty := true; value := JNumber (Offset v) |};
      {| key := "count"; omitempty := true; value := JNumber (Count v) |} ].
End tempInOps.

Module Check.
Record t := {
  ID : Z;
  Hash : string;
  CryptoAsset : types.CryptoAsset;
  Amount : string;
  BotCheckURL : string;
  Status : types.CheckStatus;
  CreatedAt : string;
  ActivatedAt : string
}.
Definition zero : t :=
  {| ID := 0; Hash := ""; CryptoAsset := ""; Amount := ""; BotCheckURL := "";
     Status := ""; CreatedAt := ""; ActivatedAt := "" |}.
End Check.

Module NewCheck.
Record t := {
  CryptoAsset : types.CryptoAsset;
  Amount : string;
  PinToUserID : Z;
  PinToUsername : string
}.
Definition zero : t :=
  {| CryptoAsset := ""; Amount := ""; PinToUserID := 0; PinToUsername := "" |}.
Definition Marshal (v : t) : JSON :=
  encode_struct
    [ {| key := "asset"; omitempty := false; value := JString (CryptoAsset v) |};
      {| key := "amount"; omitempty := false; value := JString (Amount v) |};
      {| key := "pin_to_user_id"; omitempty := true; value := JNumber (PinToUserID v) |};
      {| key := "pin_to_username"; omitempty := true; value := JString (PinToUsername v) |} ].
End NewCheck.

Module CheckOptions.
Record t := {
  CryptoAsset : types.CryptoAsset;
  CheckIDs : list Z;
  Status : types.CheckStatus;
  Offset : Z;
  Count : Z
}.
Definition zero : t :=
  {| CryptoAsset := ""; CheckIDs := []; Status := ""; Offset := 0; Count := 0 |}.
End CheckOptions.

Module tempCheckOps.
Record t := {
  CryptoAsset : string;
  CheckIDs : string;
  Status : string;
  Offset : Z;
  Count : Z
}.
Definition Marshal (v : t) : JSON :=
  encode_struct
    [ {| key := "asset"; omitempty := true; value := JString (CryptoAsset v) |};
      {| key := "check_ids"; omitempty := true; value := JString (CheckIDs v) |};
      {| key := "status"; omitempty := true; value := JString (Status v) |};
      {| key := "offset"; omitempty := true; value := JNumber (Offset v) |};
      {| key := "count"; omitempty := true; value := JNumber (Count v) |} ].
End tempCheckOps.

Module Transfer.
Record t := {
  ID : Z;
  SpendID : string;
  UserID : Z;
  CryptoAsset : types.CryptoAsset;
  Amount : string;
  Status : types.TransferStatus;
  CompletedAt : string;
  Comment : string
}.
Definition zero : t :=
  {| ID := 0; SpendID := ""; UserID := 0; CryptoAsset := ""; Amount := "";
     Status := ""; CompletedAt := ""; Comment := "" |}.
End Transfer.

Module NewTransfer.
Record t := {
  UserID : Z;
  CryptoAsset : types.CryptoAsset;
  Amount : string;
  SpendID : string;
  Comment : string;
  DisableSendNotification : bool
}.
Definition zero : t :=
  {| UserID := 0; CryptoAsset := ""; Amount := ""; SpendID := ""; Comment := "";
     DisableSendNotification := false |}.
Definition Marshal (v : t) : JSON :=
  encode_struct
    [ {| key := "user_id"; omitempty := false; value := JNumber (UserID v) |};
      {| key := "asset"; omitempty := false; value := JString (CryptoAsset v) |};
      {| key := "amount"; omitempty := false; value := JString (Amount v) |};
      {| key := "spend_id"; omitempty := false; value := JString (SpendID v) |};
      {| key := "comment"; omitempty := true; value := JString (Comment v) |};
      {| key := "disable_send_notification"; omitempty := false;
         value := JBool (DisableSendNotification v) |} ].
End NewTransfer.

Module TransferOptions.
Record t := {
  CryptoAsset : types.CryptoAsset;
  TransferIDs : list Z;
  SpendID : string;
  Offset : Z;
  Count : Z
}.
Definition zero : t :=
  {| CryptoAsset := ""; TransferIDs := []; SpendID := ""; Offset := 0; Count := 0 |}.
End TransferOptions.

Module tempTrOps.
Record t := {
  CryptoAsset : string;
  TransferIDs : string;
  SpendID : string;
  Offset : Z;
  Count : Z
}.
Definition Marshal (v : t) : JSON :=
  encode_struct
    [ {| key := "asset"; omitempty := true; value := JString (CryptoAsset v) |};
      {| key := "transfer_ids"; omitempty := true; value := JString (TransferIDs v) |};
      {| key := "spend_id"; omitempty := true; value := JString (SpendID v) |};
      {| key := "offset"; omitempty := true; value := JNumber (Offset v) |};
      {| key := "count"; omitempty := true; value := JNumber (Count v) |} ].
End tempTrOps.

Module Balance.
Record t := { CryptoAsset : types.CryptoAsset; Available : string; OnHold : string }.
End Balance.

Module ExchangeRate.
Record t := {
  IsValid : bool;
  IsCrypto : bool;
  IsFiat : bool;
  Source : types.CryptoAsset;
  Target : types.CurrencyCode;
  Rate : string
}.
End ExchangeRate.

Module AppStats.
Record t := {
  Volume : Z;
  Conversion : Z;
  UniqueUsers : Z;
  CreatedInvoices : Z;
  PaidInvoices : Z;
  StartAt : string;
  EndAt : string
}.
Definition zero : t :=
  {| Volume := 0; Conversion := 0; UniqueUsers := 0; CreatedInvoices := 0;
     PaidInvoices := 0; StartAt := ""; EndAt := "" |}.
End AppStats.

(** [time.Time], seen through [Format(time.RFC3339)], the one thing the
    package does with it. *)
Module time.
Record Time := { Format_RFC3339 : string }.
End time.

Module AppStatsOptions.
Record t := { StartAt : time.Time; EndAt : time.Time }.
Definition MarshalJSON (aso : t) : JSON :=
  encode_struct
    [ {| key := "start_at"; omitempty := false;
         value := JString (time.Format_RFC3339 (StartAt aso)) |};
      {| key := "end_at"; omitempty := false;
         value := JString (time.Format_RFC3339 (EndAt aso)) |} ].
End AppStatsOptions.

Module Update.
Record t := {
  ID : Z;
  Type_ : types.updateType;
  RequestDate : string;
  Payload : Invoice.t
}.
Definition zero : t :=
  {| ID := 0; Type_ := ""; RequestDate := ""; Payload := Invoice.zero |}.
End Update.

(** ** The [MarshalJSON] methods *)

(** [NewInvoice.MarshalJSON]: the accepted assets start from a nil slice. *)
Definition NewInvoice_MarshalJSON (in_ : NewInvoice.t) : JSON :=
  let as_ : list string := [] in
  let as_ :=
    fold_left (fun as_ a => append as_ a) (NewInvoice.AcceptedCryptoAssets in_) as_ in
  tempNewInvoice.Marshal
    {| tempNewInvoice.CurrencyType := NewInvoice.CurrencyType in_;
       tempNewInvoice.CryptoAsset := NewInvoice.CryptoAsset in_;
       tempNewInvoice.Fiat := NewInvoice.Fiat in_;
       tempNewInvoice.AcceptedCryptoAssets := strings_Join as_ ",";
       tempNewInvoice.Amount := NewInvoice.Amount in_;
       tempNewInvoice.Description := NewInvoice.Description in_;
       tempNewInvoice.HiddenMessage := NewInvoice.HiddenMessage in_;
       tempNewInvoice.PaidBtnName := NewInvoice.PaidBtnName in_;
       tempNewInvoice.PaidBtnUrl := NewInvoice.PaidBtnUrl in_;
       tempNewInvoice.Payload := NewInvoice.Payload in_;
       tempNewInvoice.AllowComments := NewInvoice.AllowComments in_;
       tempNewInvoice.AllowAnonymous := NewInvoice.AllowAnonymous in_;
       tempNewInvoice.ExpiresIn := NewInvoice.ExpiresIn in_ |}.

(** [InvoiceOptions.MarshalJSON]: [ids] starts as
    [make([]string, len(no.InvoiceIDs))] and the loop appends to it. *)
Definition InvoiceOptions_MarshalJSON (no : InvoiceOptions.t) : JSON :=
  let ids := make_strings (length (InvoiceOptions.InvoiceIDs no)) in
  let ids :=
    fold_left (fun ids id => append ids (strconv_FormatInt id))
              (InvoiceOptions.InvoiceIDs no) ids in
  tempInOps.Marshal
    {| tempInOps.CryptoAsset := InvoiceOptions.CryptoAsset no;
       tempInOps.FiatCurrency := InvoiceOptions.Fiat no;
       tempInOps.InvoiceIDs := strings_Join ids ",";
       tempInOps.Status := InvoiceOptions.Status no;
       tempInOps.Offset := InvoiceOptions.Offset no;
       tempInOps.Count := InvoiceOptions.Count no |}.

(** [CheckOptions.MarshalJSON]. *)
Definition CheckOptions_MarshalJSON (co : CheckOptions.t) : JSON :=
  let ids := make_strings (length (CheckOptions.CheckIDs co)) in
  let ids :=
    fold_left (fun ids id => append ids (strconv_FormatInt id))
              (CheckOptions.CheckIDs co) ids in
  tempCheckOps.Marshal
    {| tempCheckOps.CryptoAsset := CheckOptions.CryptoAsset co;
       tempCheckOps.CheckIDs := strings_Join ids ",";
       tempCheckOps.Status := CheckOptions.Status co;
       tempCheckOps.Offset := CheckOptions.Offset co;
       tempCheckOps.Count := CheckOptions.Count co |}.

(** [TransferOptions.MarshalJSON]. *)
Definition TransferOptions_MarshalJSON (to : TransferOptions.t) : JSON :=
  let ids := make_strings (length (TransferOptions.TransferIDs to)) in
  let ids :=
    fold_left (fun ids id => append ids (strconv_FormatInt id))
              (TransferOptions.TransferIDs to) ids in
  tempTrOps.Marshal
    {| tempTrOps.CryptoAsset := TransferOptions.CryptoAsset to;
       tempTrOps.TransferIDs := strings_Join ids ",";
       tempTrOps.SpendID := TransferOptions.SpendID to;
       tempTrOps.Offset := TransferOptions.Offset to;
       tempTrOps.Count := TransferOptions.Count to |}.

(** ** Validation *)

(** The tail shared by the six validation functions:
    [if len(errs) == 0 { return nil }; return errors.Join(errs...)]. *)
Definition join_or_nil (errs : list error) : option error :=
  if (length errs =? 0)%nat then None else Some (errors_Join errs).

Definition validateNewInvoice (in_ : NewInvoice.t) : option error :=
  let errs : list error := [] in
  let errs :=
    if (len (NewInvoice.CurrencyType in_) =? 0)%Z
    then append errs (errors_New "CurrencyType cannot be empty") else errs in
  let errs :=
    if String.eqb (NewInvoice.CurrencyType in_) Crypto
       && (len (NewInvoice.CryptoAsset in_) =? 0)%Z
    then append errs (errors_New "CryptoAsset cannot be empty") else errs in
  let errs :=
    if String.eqb (NewInvoice.CurrencyType in_) Fiat
       && (length (NewInvoice.AcceptedCryptoAssets in_) =? 0)%nat
    then append errs (errors_New "AcceptedCryptoAssets cannot be empty") else errs in
  let errs :=
    if String.eqb (NewInvoice.CurrencyType in_) Fiat
       && (len (NewInvoice.Fiat in_) =? 0)%Z
    then append errs (errors_New "FiatCurrency cannot be empty") else errs in
  let errs :=
    if (len (NewInvoice.Amount in_) =? 0)%Z
    then append errs (errors_New "Amount cannot be empty") else errs in
  let errs :=
    if negb (len (NewInvoice.PaidBtnName in_) =? 0)%Z
       && (len (NewInvoice.PaidBtnUrl in_) =? 0)%Z
    then append errs (errors_New "PaidBtnUrl cannot be empty") else errs in
  let errs :=
    if (4096 <? len (NewInvoice.Payload in_))%Z
    then append errs (errors_New "Payload should not exceed 4096 characters") else errs in
  let errs :=
    if negb (NewInvoice.ExpiresIn in_ =? 0)%Z
       && ((NewInvoice.ExpiresIn in_ <? 1)%Z || (2678400 <? NewInvoice.ExpiresIn in_)%Z)
    then append errs (errors_New "expiration time should be within 1-2678400 second range")
    else errs in
  join_or_nil errs.

Definition validateInvoiceOptions (inop : InvoiceOptions.t) : option error :=
  let errs : list error := [] in
  let errs :=
    if (InvoiceOptions.Offset inop <? 0)%Z
    then append errs (errors_New "Offset cannot be less than 0") else errs in
  let errs :=
    if negb (InvoiceOptions.Count inop =? 0)%Z
       && ((InvoiceOptions.Count inop <? 1)%Z || (1000 <? InvoiceOptions.Count inop)%Z)
    then append errs (errors_New "Count needs to be within 1-1000 record range") else errs in
  join_or_nil errs.

Definition validateNewCheck (nc : NewCheck.t) : option error :=
  let errs : list error := [] in
  let errs :=
    if (len (NewCheck.CryptoAsset nc) =? 0)%Z
    then append errs (errors_New "CryptoAsset cannot be empty") else errs in
  let errs :=
    if (len (NewCheck.Amount nc) =? 0)%Z
    then append errs (errors_New "Amount cannot be empty") else errs in
  join_or_nil errs.

Definition validateCheckOptions (ckops : CheckOptions.t) : option error :=
  let errs : list error := [] in
  let errs :=
    if (CheckOptions.Offset ckops <? 0)%Z
    then append errs (errors_New "Offset cannot be less than 0") else errs in
  let errs :=
    if negb (CheckOptions.Count ckops =? 0)%Z
       && ((CheckOptions.Count ckops <? 1)%Z || (1000 <? CheckOptions.Count ckops)%Z)
    then append errs (errors_New "Count needs to be within 1-1000 record range") else errs in
  join_or_nil errs.

Definition validateNewTransfer (nt : NewTransfer.t) : option error :=
  let errs : list error := [] in
  let errs :=
    if (len (NewTransfer.CryptoAsset nt) =? 0)%Z
    then append errs (errors_New "CryptoAsset cannot be empty") else errs in
  let errs :=
    if (len (NewTransfer.SpendID nt) =? 0)%Z
    then append errs (errors_New "SpendID cannot be empty") else errs in
  let errs :=
    if (64 <? len (NewTransfer.SpendID nt))%Z
    then append errs (errors_New "SpendID cannot exceed 64 characters") else errs in
  let errs :=
    if (1024 <? len (NewTransfer.Comment nt))%Z
    then append errs (errors_New "Comment cannot exceed 1024 characters") else errs in
  join_or_nil errs.

Definition validateTransferOptions (trops : TransferOptions.t) : option error :=
  let errs : list error := [] in
  let errs :=
    if (64 <? len (TransferOptions.SpendID trops))%Z
    then append errs (errors_New "SpendID cannot exceed 64 characters") else errs in
  let errs :=
    if (TransferOptions.Offset trops <? 0)%Z
    then append errs (errors_New "Offset cannot be less than 0") else errs in
  let errs :=
    if negb (TransferOptions.Count trops =? 0)%Z
       && ((TransferOptions.Count trops <? 1)%Z || (1000 <? TransferOptions.Count trops)%Z)
    then append errs (errors_New "Count needs to be within 1-1000 record range") else errs in
  join_or_nil errs.

(** ** net/http: headers, requests, responses *)

(** [textproto.CanonicalMIMEHeaderKey]: a key made of header-field bytes gets
    an upper-case letter first and after each dash and lower-case letters
    elsewhere; any other key is left as it is. *)
Definition validHeaderFieldByte (c : ascii) : bool :=
  let n := nat_of_ascii c in
  ((48 <=? n) && (n <=? 57) || (65 <=? n) && (n <=? 90) || (97 <=? n) && (n <=? 122))%nat
  || existsb (Ascii.eqb c) (list_ascii_of_string "!#$%&'*+-.^_`|~").

Fixpoint canonical (upper : bool) (s : string) : string :=
  match s with
  | EmptyString => EmptyString
  | String c s' =>
      let n := nat_of_ascii c in
      let c' :=
        if upper && (97 <=? n)%nat && (n <=? 122)%nat then ascii_of_nat (n - 32)
        else if negb upper && (65 <=? n)%nat && (n <=? 90)%nat then ascii_of_nat (n + 32)
        else c in
      String c' (canonical (Ascii.eqb c' "-") s')
  end.

Definition CanonicalMIMEHeaderKey (s : string) : string :=
  if forallb validHeaderFieldByte (list_ascii_of_string s) then canonical true s else s.

(** [http.Header], a [map[string][]string]. *)
Abbreviation Header := (gmap string (list string)).

(** [Header.Get]: the first value under the canonical key, or [""]. *)
Definition Header_Get (h : Header) (k : string) : string :=
  match h !! CanonicalMIMEHeaderKey k with
  | Some (v :: _) => v
  | _ => ""
  end.

(** [Header.Set]. *)
Definition Header_Set (h : Header) (k v : string) : Header :=
  <[CanonicalMIMEHeaderKey k := [v]]> h.

(** An [io.Reader], seen through what [io.ReadAll] gets out of it: the bytes
    it delivers and the error that ends them ([nil] at end of file). *)
Record Reader := { delivers : list byte; fails : option error }.

Definition bytes_NewReader (b : list byte) : Reader := {| delivers := b; fails := None |}.
Definition http_NoBody : Reader := {| delivers := []; fails := None |}.

Module Request.
Record t := { Method : string; URL : string; Header : Header; Body : Reader }.
End Request.

Module Response.
Record t := { Body : Reader }.
Definition zero : t := {| Body := http_NoBody |}.
End Response.

(** The [Do] method of the configured client. *)
Definition HTTPClient := Request.t -> Response.t * option error.

(** ** The response envelope *)

Module response.
Record t (T : Type) := { Ok : bool; Error : list byte; Result : T }.
Arguments Ok {T}.
Arguments Error {T}.
Arguments Result {T}.
Definition zero {T} (z : T) : t T := {| Ok := false; Error := []; Result := z |}.
End response.

(** The carrier [struct { Items []T }]. *)
Module carrier.
Record t (T : Type) := { Items : list T }.
Arguments Items {T}.
Definition zero {T} : t T := {| Items := [] |}.
End carrier.

(** The type set of [resultConstraint]. *)
Inductive resultConstraint : Type :=
| RawMessageT | InvoiceT | CheckT | TransferT | AppStatsT | BalancesT
| ExchangeRatesT | BoolT | InvoiceItemsT | CheckItemsT | TransferItemsT.

Definition result (k : resultConstraint) : Type :=
  match k with
  | RawMessageT => list byte
  | InvoiceT => Invoice.t
  | CheckT => Check.t
  | TransferT => Transfer.t
  | AppStatsT => AppStats.t
  | BalancesT => list Balance.t
  | ExchangeRatesT => list ExchangeRate.t
  | BoolT => bool
  | InvoiceItemsT => carrier.t Invoice.t
  | CheckItemsT => carrier.t Check.t
  | TransferItemsT => carrier.t Transfer.t
  end.

Definition result_zero (k : resultConstraint) : result k :=
  match k with
  | RawMessageT => []
  | InvoiceT => Invoice.zero
  | CheckT => Check.zero
  | TransferT => Transfer.zero
  | AppStatsT => AppStats.zero
  | BalancesT => []
  | ExchangeRatesT => []
  | BoolT => false
  | InvoiceItemsT => carrier.zero
  | CheckItemsT => carrier.zero
  | TransferItemsT => carrier.zero
  end.

(** ** The standard library the package calls

    What the package takes from [encoding/json], [net/url] and [net/http]
    without looking inside. [json.Unmarshal(data, &v)] is a function of the
    bytes and of the value [v] holds, to the value it holds afterwards and
    the error. *)
Class GoLib := {
  json_encode : JSON -> list byte;
  json_decode_Update : list byte -> Update.t -> Update.t * option error;
  json_decode_response :
    forall k, list byte -> response.t (result k) -> response.t (result k) * option error;
  url_JoinPath : string -> string -> string * option error;
  http_NewRequest_error : string -> string -> option error
}.

(** ** Effects

    What a call does to the outside is recorded, in order. *)
Inductive event : Type :=
| io_ReadAll_event (r : Reader)
| json_Marshal_event (v : JSON)
| json_Unmarshal_event (data : list byte)
| client_Do_event (req : Request.t).

Definition IO (A : Type) : Type := list event -> A * list event.

Definition ret {A} (a : A) : IO A := fun tr => (a, tr).
Definition bind {A B} (m : IO A) (k : A -> IO B) : IO B :=
  fun tr => let (a, tr') := m tr in k a tr'.
Definition emit (e : event) : IO unit := fun tr => (tt, tr ++ [e]).

Declare Scope io_scope.
Delimit Scope io_scope with io.
Notation "'let*' pat := m 'in' k" :=
  (bind m (fun x => match x with pat => k end))
  (at level 10, pat pattern, m at level 100, k at level 200) : io_scope.
Notation "m ;; k" := (bind m (fun _ => k))
  (at level 100, right associativity) : io_scope.
(** [if err != nil { return z, err }], followed by the rest. *)
Notation "'check' err 'or_return' z ;; k" :=
  (match err with Some e => ret (z, Some e) | None => k end)
  (at level 100, err at next level, z at next level, right associativity) : io_scope.

(** The two endpoints. *)
Definition Mainnet : string := "https://pay.crypt.bot/api".
Definition Testnet : string := "https://testnet-pay.crypt.bot/api".

Section Client.
Context `{GoLib}.
Local Open Scope io_scope.

Definition io_ReadAll (r : Reader) : IO (list byte * option error) :=
  emit (io_ReadAll_event r) ;; ret (delivers r, fails r).

(** [json.Marshal] of the values the package encodes (strings, integers and
    booleans in structs) has no error to return. *)
Definition json_Marshal (v : JSON) : IO (list byte * option error) :=
  emit (json_Marshal_event v) ;; ret (json_encode v, None).

Definition json_Unmarshal_Update (data : list byte) (u : Update.t)
  : IO (Update.t * option error) :=
  emit (json_Unmarshal_event data) ;; ret (json_decode_Update data u).

Definition json_Unmarshal_response k (data : list byte) (res : response.t (result k))
  : IO (response.t (result k) * option error) :=
  emit (json_Unmarshal_event data) ;; ret (json_decode_response k data res).

Definition client_Do (c : HTTPClient) (req : Request.t) : IO (Response.t * option error) :=
  emit (client_Do_event req) ;; ret (c req).

(** [http.NewRequest(method, url, r)]; a nil reader gives no body. *)
Definition http_NewRequest (method url : string) (r : option Reader)
  : Request.t * option error :=
  ({| Request.Method := method; Request.URL := url; Request.Header := ∅;
      Request.Body := match r with Some r => r | None => http_NoBody end |},
   http_NewRequest_error method url).

Record cryptobot := { token : string; client : HTTPClient; endpoint : string }.

(** [makeRequest]; the deferred [res.Body.Close()] has no part in the result. *)
Definition makeRequest (cb : cryptobot) (method url : string) (r : option Reader)
  : IO (list byte * option error) :=
  let '(req, err) := http_NewRequest method url r in
  check err or_return [] ;;
  let req :=
    {| Request.Method := Request.Method req; Request.URL := Request.URL req;
       Request.Header := Header_Set (Request.Header req) "Crypto-Pay-API-Token" (token cb);
       Request.Body := Request.Body req |} in
  let req :=
    {| Request.Method := Request.Method req; Request.URL := Request.URL req;
       Request.Header := Header_Set (Request.Header req) "Content-Type" "application/json";
       Request.Body := Request.Body req |} in
  let* (res, err) := client_Do (client cb) req in
  check err or_return [] ;;
  let* (body, err) := io_ReadAll (Response.Body res) in
  check err or_return [] ;;
  ret (body, None).

(** [h.Write(body)] on the HMAC: a hash never fails to absorb. *)
Definition hmac_Write (h : hmac.t) (p : list byte) : hmac.t * option error :=
  ({| hmac.key := hmac.key h; hmac.written := hmac.written h ++ p |}, None).

Definition HandleUpdate (cb : cryptobot) (r : Request.t) : IO (Update.t * option error) :=
  let sig := Header_Get (Request.Header r) "crypto-pay-api-signature" in
  if (len sig =? 0)%Z then
    ret (Update.zero, Some (errors_New "crypto-pay-api-signature header was not found"))
  else
  let* (body, err) := io_ReadAll (Request.Body r) in
  match err with
  | Some err => ret (Update.zero, Some (fmt_Errorf "failed to read the update body: %w" err))
  | None =>
  let hkey := sha256.Sum256 (bytes_of_string (token cb)) in
  let h := hmac.New hkey in
  let '(h, err) := hmac_Write h body in
  match err with
  | Some err => ret (Update.zero, Some (fmt_Errorf "failed to create a new sha256 hmac: %w" err))
  | None =>
  if negb (String.eqb sig (fmt_Sprintf_x (hmac.Sum h []))) then
    ret (Update.zero, Some (errors_New "failed to verify the update"))
  else
  let u := Update.zero in
  let* (u, err) := json_Unmarshal_Update body u in
  match err with
  | Some err => ret (Update.zero, Some (fmt_Errorf "failed to unmarshal the update: %w" err))
  | None => ret (u, None)
  end end end.

(** The twelve API operations. *)

Definition GetMe (cb : cryptobot) : IO (list byte * option error) :=
  let '(murl, err) := url_JoinPath (endpoint cb) "/getMe" in
  check err or_return [] ;;
  let* (body, err) := makeRequest cb "GET" murl None in
  check err or_return [] ;;
  let res := response.zero (result_zero RawMessageT) in
  let* (res, err) := json_Unmarshal_response RawMessageT body res in
  check err or_return [] ;;
  if negb (response.Ok res) then
    ret ([], Some (errors_New (string_of_bytes (response.Error res))))
  else ret (response.Result res, None).

Definition CreateInvoice (cb : cryptobot) (in_ : NewInvoice.t)
  : IO (Invoice.t * option error) :=
  check validateNewInvoice in_ or_return Invoice.zero ;;
  let '(murl, err) := url_JoinPath (endpoint cb) "/createInvoice" in
  check err or_return Invoice.zero ;;
  let* (data, err) := json_Marshal (NewInvoice_MarshalJSON in_) in
  check err or_return Invoice.zero ;;
  let* (body, err) := makeRequest cb "GET" murl (Some (bytes_NewReader data)) in
  check err or_return Invoice.zero ;;
  let res := response.zero (result_zero InvoiceT) in
  let* (res, err) := json_Unmarshal_response InvoiceT body res in
  check err or_return Invoice.zero ;;
  if negb (response.Ok res) then
    ret (Invoice.zero, Some (errors_New (string_of_bytes (response.Error res))))
  else ret (response.Result res, None).

Definition DeleteInvoice (cb : cryptobot) (id : Z) : IO (bool * option error) :=
  let '(murl, err) := url_JoinPath (endpoint cb) "/deleteInvoice" in
  check err or_return false ;;
  let* (data, err) :=
    json_Marshal
      (encode_struct [ {| key := "invoice_id"; omitempty := false; value := JNumber id |} ]) in
  check err or_return false ;;
  let* (body, err) := makeRequest cb "POST" murl (Some (bytes_NewReader data)) in
  check err or_return false ;;
  let res := response.zero (result_zero BoolT) in
  let* (res, err) := json_Unmarshal_response BoolT body res in
  check err or_return false ;;
  if negb (response.Ok res) then
    ret (false, Some (errors_New (string_of_bytes (response.Error res))))
  else ret (response.Result res, None).

Definition GetInvoices (cb : cryptobot) (inop : InvoiceOptions.t)
  : IO (list Invoice.t * option error) :=
  check validateInvoiceOptions inop or_return [] ;;
  let '(murl, err) := url_JoinPath (endpoint cb) "/getInvoices" in
  check err or_return [] ;;
  let* (data, err) := json_Marshal (InvoiceOptions_MarshalJSON inop) in
  check err or_return [] ;;
  let* (body, err) := makeRequest cb "POST" murl (Some (bytes_NewReader data)) in
  check err or_return [] ;;
  let res := response.zero (result_zero InvoiceItemsT) in
  let* (res, err) := json_Unmarshal_response InvoiceItemsT body res in
  check err or_return [] ;;
  if negb (response.Ok res) then
    ret ([], Some (errors_New (string_of_bytes (response.Error res))))
  else ret (carrier.Items (response.Result res), None).

Definition CreateCheck (cb : cryptobot) (nc : NewCheck.t) : IO (Check.t * option error) :=
  check validateNewCheck nc or_return Check.zero ;;
  let '(murl, err) := url_JoinPath (endpoint cb) "/createCheck" in
  check err or_return Check.zero ;;
  let* (data, err) := json_Marshal (NewCheck.Marshal nc) in
  check err or_return Check.zero ;;
  let* (body, err) := makeRequest cb "GET" murl (Some (bytes_NewReader data)) in
  check err or_return Check.zero ;;
  let res := response.zero (result_zero CheckT) in
  let* (res, err) := json_Unmarshal_response CheckT body res in
  check err or_return Check.zero ;;
  if negb (response.Ok res) then
    ret (Check.zero, Some (errors_New (string_of_bytes (response.Error res))))
  else ret (response.Result res, None).

Definition DeleteCheck (cb : cryptobot) (id : Z) : IO (bool * option error) :=
  let '(murl, err) := url_JoinPath (endpoint cb) "/deleteCheck" in
  check err or_return false ;;
  let* (data, err) :=
    json_Marshal
      (encode_struct [ {| key := "check_id"; omitempty := false; value := JNumber id |} ]) in
  check err or_return false ;;
  let* (body, err) := makeRequest cb "POST" murl (Some (bytes_NewReader data)) in
  check err or_return false ;;
  let res := response.zero (result_zero BoolT) in
  let* (res, err) := json_Unmarshal_response BoolT body res in
  check err or_return false ;;
  if negb (response.Ok res) then
    ret (false, Some (errors_New (string_of_bytes (response.Error res))))
  else ret (response.Result res, None).

Definition GetChecks (cb : cryptobot) (ckops : CheckOptions.t)
  : IO (list Check.t * option error) :=
  check validateCheckOptions ckops or_return [] ;;
  let '(murl, err) := url_JoinPath (endpoint cb) "/getChecks" in
  check err or_return [] ;;
  let* (data, err) := json_Marshal (CheckOptions_MarshalJSON ckops) in
  check err or_return [] ;;
  let* (body, err) := makeRequest cb "POST" murl (Some (bytes_NewReader data)) in
  check err or_return [] ;;
  let res := response.zero (result_zero CheckItemsT) in
  let* (res, err) := json_Unmarshal_response CheckItemsT body res in
  check err or_return [] ;;
  if negb (response.Ok res) then
    ret ([], Some (errors_New (string_of_bytes (response.Error res))))
  else ret (carrier.Items (response.Result res), None).

Definition CreateTransfer (cb : cryptobot) (nt : NewTransfer.t)
  : IO (Transfer.t * option error) :=
  check validateNewTransfer nt or_return Transfer.zero ;;
  let '(murl, err) := url_JoinPath (endpoint cb) "/transfer" in
  check err or_return Transfer.zero ;;
  let* (data, err) := json_Marshal (NewTransfer.Marshal nt) in
  check err or_return Transfer.zero ;;
  let* (body, err) := makeRequest cb "GET" murl (Some (bytes_NewReader data)) in
  check err or_return Transfer.zero ;;
  let res := response.zero (result_zero TransferT) in
  let* (res, err) := json_Unmarshal_response TransferT body res in
  check err or_return Transfer.zero ;;
  if negb (response.Ok res) then
    ret (Transfer.zero, Some (errors_New (string_of_bytes (response.Error res))))
  else ret (response.Result res, None).

Definition GetTransfers (cb : cryptobot) (trops : TransferOptions.t)
  : IO (list Transfer.t * option error) :=
  check validateTransferOptions trops or_return [] ;;
  let '(murl, err) := url_JoinPath (endpoint cb) "/getTransfers" in
  check err or_return [] ;;
  let* (data, err) := json_Marshal (TransferOptions_MarshalJSON trops) in
  check err or_return [] ;;
  let* (body, err) := makeRequest cb "POST" murl (Some (bytes_NewReader data)) in
  check err or_return [] ;;
  let res := response.zero (result_zero TransferItemsT) in
  let* (res, err) := json_Unmarshal_response TransferItemsT body res in
  check err or_return [] ;;
  if negb (response.Ok res) then
    ret ([], Some (errors_New (string_of_bytes (response.Error res))))
  else ret (carrier.Items (response.Result res), None).

Definition GetBalance (cb : cryptobot) : IO (list Balance.t * option error) :=
  let '(murl, err) := url_JoinPath (endpoint cb) "/getBalance" in
  check err or_return [] ;;
  let* (body, err) := makeRequest cb "GET" murl None in
  check err or_return [] ;;
  let res := response.zero (result_zero BalancesT) in
  let* (res, err) := json_Unmarshal_response BalancesT body res in
  check err or_return [] ;;
  if negb (response.Ok res) then
    ret ([], Some (errors_New (string_of_bytes (response.Error res))))
  else ret (response.Result res, None).

Definition GetExchangeRates (cb : cryptobot) : IO (list ExchangeRate.t * option error) :=
  let '(murl, err) := url_JoinPath (endpoint cb) "/getExchangeRates" in
  check err or_return [] ;;
  let* (body, err) := makeRequest cb "GET" murl None in
  check err or_return [] ;;
  let res := response.zero (result_zero ExchangeRatesT) in
  let* (res, err) := json_Unmarshal_response ExchangeRatesT body res in
  check err or_return [] ;;
  if negb (response.Ok res) then
    ret ([], Some (errors_New (string_of_bytes (response.Error res))))
  else ret (response.Result res, None).

Definition GetAppStats (cb : cryptobot) (asops : AppStatsOptions.t)
  : IO (AppStats.t * option error) :=
  let '(murl, err) := url_JoinPath (endpoint cb) "/getStats" in
  check err or_return AppStats.zero ;;
  let* (data, err) := json_Marshal (AppStatsOptions.MarshalJSON asops) in
  check err or_return AppStats.zero ;;
  let* (body, err) := makeRequest cb "POST" murl (Some (bytes_NewReader data)) in
  check err or_return AppStats.zero ;;
  let res := response.zero (result_zero AppStatsT) in
  let* (res, err) := json_Unmarshal_response AppStatsT body res in
  check err or_return AppStats.zero ;;
  if negb (response.Ok res) then
    ret (AppStats.zero, Some (errors_New (string_of_bytes (response.Error res))))
  else ret (response.Result res, None).

End Client.

(** ** Reference notions used to state the properties *)

(** The signature Crypto Pay attaches to a webhook body [B] for the token
    [T]: the lowercase hexadecimal form of HMAC-SHA256 keyed by SHA256(T). *)
Definition SHA256 (data : list byte) : list byte := sha256.Sum256 data.
Definition HMAC_SHA256 (k msg : list byte) : list byte :=
  hmac.Sum {| hmac.key := k; hmac.written := msg |} [].
Definition hex (b : list byte) : string := fmt_Sprintf_x b.
Definition webhook_signature (T : string) (B : list byte) : string :=
  hex (HMAC_SHA256 (SHA256 (bytes_of_string T)) B).

(** The canonical key under which a request carries the signature. *)
Definition signature_key : string := "Crypto-Pay-Api-Signature".

(** The two errors of the signature stage, and the error of the decoding stage. *)
Definition SignatureMissingError : error :=
  errors_New "crypto-pay-api-signature header was not found".
Definition SignatureMismatchError : error :=
  errors_New "failed to verify the update".
Definition UnparseableUpdateError (cause : error) : error :=
  fmt_Errorf "failed to unmarshal the update: %w" cause.
Definition BodyReadError (cause : error) : error :=
  fmt_Errorf "failed to read the update body: %w" cause.

(** A validation rule: the condition under which it is violated and the
    message it reports. *)
Definition rule (A : Type) : Type := (A -> bool) * string.

(** The messages of the violated rules, in the order of the table. *)
Fixpoint violations {A} (rules : list (rule A)) (x : A) : list error :=
  match rules with
  | [] => []
  | (violated, msg) :: rules' =>
      if violated x then errors_New msg :: violations rules' x
      else violations rules' x
  end.

(** The rules of each validation function, in the order of the source. *)
Definition NewInvoice_rules : list (rule NewInvoice.t) :=
  [ (fun v => (len (NewInvoice.CurrencyType v) =? 0)%Z,
     "CurrencyType cannot be empty");
    (fun v => String.eqb (NewInvoice.CurrencyType v) Crypto
              && (len (NewInvoice.CryptoAsset v) =? 0)%Z,
     "CryptoAsset cannot be empty");
    (fun v => String.eqb (NewInvoice.CurrencyType v) Fiat
              && (length (NewInvoice.AcceptedCryptoAssets v) =? 0)%nat,
     "AcceptedCryptoAssets cannot be empty");
    (fun v => String.eqb (NewInvoice.CurrencyType v) Fiat
              && (len (NewInvoice.Fiat v) =? 0)%Z,
     "FiatCurrency cannot be empty");
    (fun v => (len (NewInvoice.Amount v) =? 0)%Z,
     "Amount cannot be empty");
    (fun v => negb (len (NewInvoice.PaidBtnName v) =? 0)%Z
              && (len (NewInvoice.PaidBtnUrl v) =? 0)%Z,
     "PaidBtnUrl cannot be empty");
    (fun v => (4096 <? len (NewInvoice.Payload v))%Z,
     "Payload should not exceed 4096 characters");
    (fun v => negb (NewInvoice.ExpiresIn v =? 0)%Z
              && ((NewInvoice.ExpiresIn v <? 1)%Z || (2678400 <? NewInvoice.ExpiresIn v)%Z),
     "expiration time should be within 1-2678400 second range") ].

Definition InvoiceOptions_rules : list (rule InvoiceOptions.t) :=
  [ (fun v => (InvoiceOptions.Offset v <? 0)%Z, "Offset cannot be less than 0");
    (fun v => negb (InvoiceOptions.Count v =? 0)%Z
              && ((InvoiceOptions.Count v <? 1)%Z || (1000 <? InvoiceOptions.Count v)%Z),
     "Count needs to be within 1-1000 record range") ].

Definition NewCheck_rules : list (rule NewCheck.t) :=
  [ (fun v => (len (NewCheck.CryptoAsset v) =? 0)%Z, "CryptoAsset cannot be empty");
    (fun v => (len (NewCheck.Amount v) =? 0)%Z, "Amount cannot be empty") ].

Definition CheckOptions_rules : list (rule CheckOptions.t) :=
  [ (fun v => (CheckOptions.Offset v <? 0)%Z, "Offset cannot be less than 0");
    (fun v => negb (CheckOptions.Count v =? 0)%Z
              && ((CheckOptions.Count v <? 1)%Z || (1000 <? CheckOptions.Count v)%Z),
     "Count needs to be within 1-1000 record range") ].

Definition NewTransfer_rules : list (rule NewTransfer.t) :=
  [ (fun v => (len (NewTransfer.CryptoAsset v) =? 0)%Z, "CryptoAsset cannot be empty");
    (fun v => (len (NewTransfer.SpendID v) =? 0)%Z, "SpendID cannot be empty");
    (fun v => (64 <? len (NewTransfer.SpendID v))%Z, "SpendID cannot exceed 64 characters");
    (fun v => (1024 <? len (NewTransfer.Comment v))%Z,
     "Comment cannot exceed 1024 characters") ].

Definition TransferOptions_rules : list (rule TransferOptions.t) :=
  [ (fun v => (64 <? len (TransferOptions.SpendID v))%Z,
     "SpendID cannot exceed 64 characters");
    (fun v => (TransferOptions.Offset v <? 0)%Z, "Offset cannot be less than 0");
    (fun v => negb (TransferOptions.Count v =? 0)%Z
              && ((TransferOptions.Count v <? 1)%Z || (1000 <? TransferOptions.Count v)%Z),
     "Count needs to be within 1-1000 record range") ].

(** An error reports a rule when it is the join of a list that holds the
    rule's message. *)
Definition reports (e : option error) (msg : string) : Prop :=
  exists errs, e = Some (errors_Join errs) /\ In (errors_New msg) errs.

(** The event of a read of a body. *)
Definition is_ReadAll (e : event) : bool :=
  match e with io_ReadAll_event _ => true | _ => false end.



(** ** A small instance of the library, to run the code on examples *)

Module Demo.

Definition q : string := String "034"%char EmptyString.

Fixpoint render (j : JSON) : string :=
  match j with
  | JString s => (q ++ s ++ q)%string
  | JNumber n => strconv_FormatInt n
  | JBool b => if b then "true" else "false"
  | JObject kvs =>
      ("{" ++ strings_Join
                ((fix go (kvs : list (string * JSON)) : list string :=
                    match kvs with
                    | [] => []
                    | (k, v) :: kvs' => (q ++ k ++ q ++ ":" ++ render v)%string :: go kvs'
                    end) kvs) "," ++ "}")%string
  end.

(** [{"update_id":1}] *)
Definition update1 : list byte :=
  bytes_of_string ("{" ++ q ++ "update_id" ++ q ++ ":1}")%string.

(** [{"code":401,"name":"UNAUTHORIZED"}] *)
Definition unauthorized : string :=
  ("{" ++ q ++ "code" ++ q ++ ":401," ++ q ++ "name" ++ q ++ ":" ++ q ++ "UNAUTHORIZED" ++ q ++ "}")%string.

(** [{"ok":false,"error":{"code":401,"name":"UNAUTHORIZED"}}] *)
Definition refusal : list byte :=
  bytes_of_string
    ("{" ++ q ++ "ok" ++ q ++ ":false," ++ q ++ "error" ++ q ++ ":" ++ unauthorized ++ "}")%string.

(** [{"ok":true,"result":true}] *)
Definition done_true : list byte :=
  bytes_of_string ("{" ++ q ++ "ok" ++ q ++ ":true," ++ q ++ "result" ++ q ++ ":true}")%string.

(** The update decoded from it. *)
Definition update_with_ID_1 : Update.t :=
  {| Update.ID := 1; Update.Type_ := ""; Update.RequestDate := "";
     Update.Payload := Invoice.zero |}.

Definition bytes_eqb (a b : list byte) : bool :=
  String.eqb (string_of_bytes a) (string_of_bytes b).

Definition decode_Update (data : list byte) (u : Update.t) : Update.t * option error :=
  if bytes_eqb data update1 then
    ({| Update.ID := 1; Update.Type_ := Update.Type_ u;
        Update.RequestDate := Update.RequestDate u; Update.Payload := Update.Payload u |},
     None)
  else (u, Some (lib_error "invalid character looking for beginning of value")).

Definition decode_response k (data : list byte) (res : response.t (result k))
  : response.t (result k) * option error :=
  if bytes_eqb data refusal then
    ({| response.Ok := false; response.Error := bytes_of_string unauthorized;
        response.Result := response.Result res |}, None)
  else if bytes_eqb data done_true then
    match k return response.t (result k) -> response.t (result k) * option error with
    | BoolT => fun res =>
        ({| response.Ok := true; response.Error := response.Error res;
            response.Result := true |}, None)
    | _ => fun res =>
        ({| response.Ok := true; response.Error := response.Error res;
            response.Result := response.Result res |},
         Some (lib_error "json: cannot unmarshal bool into Go struct field .result"))
    end res
  else (res, Some (lib_error "invalid character looking for beginning of value")).

Definition lib : GoLib :=
  {| json_encode := fun j => bytes_of_string (render j);
     json_decode_Update := decode_Update;
     json_decode_response := decode_response;
     url_JoinPath := fun base elem => ((base ++ elem)%string, None);
     http_NewRequest_error := fun _ _ => None |}.

(** A server that answers every request with the same body. *)
Definition answers (body : list byte) : HTTPClient :=
  fun _ => ({| Response.Body := bytes_NewReader body |}, None).

Definition cb (body : list byte) : @cryptobot :=
  {| token := "API_TOKEN"; client := answers body; endpoint := Testnet |}.

(** The request of the example: no currency type, no amount, a payload of
    4097 bytes. *)
Definition bad_invoice : NewInvoice.t :=
  {| NewInvoice.CurrencyType := ""; NewInvoice.CryptoAsset := ""; NewInvoice.Fiat := "";
     NewInvoice.AcceptedCryptoAssets := []; NewInvoice.Amount := "";
     NewInvoice.Description := ""; NewInvoice.HiddenMessage := "";
     NewInvoice.PaidBtnName := ""; NewInvoice.PaidBtnUrl := "";
     NewInvoice.Payload := string_of_list_ascii (repeat "x"%char 4097);
     NewInvoice.AllowComments := false; NewInvoice.AllowAnonymous := false;
     NewInvoice.ExpiresIn := 0 |}.

(** A transfer with no amount. *)
Definition transfer_without_amount : NewTransfer.t :=
  {| NewTransfer.UserID := 1844235715; NewTransfer.CryptoAsset := TON;
     NewTransfer.Amount := ""; NewTransfer.SpendID := "randomid";
     NewTransfer.Comment := ""; NewTransfer.DisableSendNotification := false |}.

(** A webhook request with the given signature header and body. *)
Definition webhook (sig : list string) (body : Reader) : Request.t :=
  {| Request.Method := "POST"; Request.URL := "/webhook";
     Request.Header := {[ signature_key := sig ]};
     Request.Body := body |}.

End Demo.

(** ** Client construction *)

Module Config.
Record t := { Token : string; Endpoint : string; Client : option HTTPClient }.
End Config.

(** [NewClient] ([New] in the other version of the file); [http.DefaultClient]
    is the client of the library. With an error the client returned is nil. *)
Definition NewClient (http_DefaultClient : HTTPClient) (cf : Config.t)
  : option cryptobot * option error :=
  if (len (Config.Token cf) =? 0)%Z then
    (None, Some (errors_New "no token was provided for crypto bot"))
  else if (len (Config.Endpoint cf) =? 0)%Z then
    (None, Some (errors_New "no endpoint was provided for crypto bot"))
  else
    let cf :=
      match Config.Client cf with
      | None =>
          {| Config.Token := Config.Token cf; Config.Endpoint := Config.Endpoint cf;
             Config.Client := Some http_DefaultClient |}
      | Some _ => cf
      end in
    (Some {| token := Config.Token cf;
             endpoint := Config.Endpoint cf;
             client := match Config.Client cf with
                       | Some c => c
                       | None => http_DefaultClient
                       end |},
     None).

(** ** Further notions used to state properties *)

(** The requests sent, the readers read and the bodies decoded in a trace. *)
Fixpoint requests (tr : list event) : list Request.t :=
  match tr with
  | [] => []
  | client_Do_event req :: tr' => req :: requests tr'
  | _ :: tr' => requests tr'
  end.

Fixpoint reads (tr : list event) : list Reader :=
  match tr with
  | [] => []
  | io_ReadAll_event r :: tr' => r :: reads tr'
  | _ :: tr' => reads tr'
  end.

Fixpoint decodings (tr : list event) : list (list byte) :=
  match tr with
  | [] => []
  | json_Unmarshal_event d :: tr' => d :: decodings tr'
  | _ :: tr' => decodings tr'
  end.

Fixpoint encodings (tr : list event) : list JSON :=
  match tr with
  | [] => []
  | json_Marshal_event v :: tr' => v :: encodings tr'
  | _ :: tr' => encodings tr'
  end.

(** What the receiver of a list field does: [strings.Split(s, ",")]. *)
Fixpoint split_commas (s : string) : list string :=
  match s with
  | EmptyString => [EmptyString]
  | String c s' =>
      if Ascii.eqb c "," then EmptyString :: split_commas s'
      else match split_commas s' with
           | [] => [String c EmptyString]
           | x :: xs => String c x :: xs
           end
  end.

Definition comma_free (s : string) : bool :=
  forallb (fun c => negb (Ascii.eqb c ",")) (list_ascii_of_string s).

(** [n] commas. *)
Fixpoint commas (n : nat) : string :=
  match n with
  | O => EmptyString
  | S n' => String "," (commas n')
  end.

Definition is_lower_hex (c : ascii) : bool :=
  existsb (Ascii.eqb c) (list_ascii_of_string "0123456789abcdef").

(** The keys of an encoded object, in the order sent. *)
Definition keys (j : JSON) : list string :=
  match j with
  | JObject kvs => map fst kvs
  | _ => []
  end.

(** An operation returns the zero value [z] with every error. *)
Definition zero_on_error {R} (op : IO (R * option error)) (z : R) : Prop :=
  forall tr r e, fst (op tr) = (r, Some e) -> r = z.

(** An operation guarded by [validate] returns the validation error as it is,
    with the zero value, and does nothing else. *)
Definition validates_first {A R} (validate : A -> option error)
    (op : A -> IO (R * option error)) (z : R) : Prop :=
  forall x e tr, validate x = Some e -> op x tr = ((z, Some e), tr).

(** Whatever [op] sends is one request, of the given method, to the given
    path under the endpoint, with the token and the content type in its
    header and the encoding of [body] (or nothing) as its body; it encodes
    nothing but [body]. *)
Definition sends `{GoLib} {R} (cb : cryptobot) (op : IO (R * option error))
    (method path : string) (body : option JSON) : Prop :=
  (length (requests (snd (op []))) <= 1)%nat /\
  (forall v, In v (encodings (snd (op []))) -> body = Some v) /\
  forall req, In req (requests (snd (op []))) ->
    Request.Method req = method /\
    url_JoinPath (endpoint cb) path = (Request.URL req, None) /\
    Header_Get (Request.Header req) "Crypto-Pay-API-Token" = token cb /\
    Header_Get (Request.Header req) "Content-Type" = "application/json" /\
    Request.Body req =
      match body with
      | Some j => bytes_NewReader (json_encode j)
      | None => http_NoBody
      end.


(** ** Characters of a UTF-8 string *)

(** A continuation byte of UTF-8, [10xxxxxx]. *)
Definition utf8_continuation (c : ascii) : bool :=
  let n := nat_of_ascii c in ((128 <=? n) && (n <=? 191))%nat.

(** The number of characters of a string that is valid UTF-8: every
    character has one byte that is not a continuation byte, its first. *)
Fixpoint characters (s : string) : Z :=
  match s with
  | EmptyString => 0
  | String c s' => (if utf8_continuation c then 0 else 1) + characters s'
  end.

(** [strings.Repeat(s, n)]. *)
Fixpoint strings_Repeat (s : string) (n : nat) : string :=
  match n with
  | O => EmptyString
  | S n' => (s ++ strings_Repeat s n')%string
  end.

(** The letter e with an acute accent, U+00E9: the bytes C3 A9. *)
Definition e_acute : string := String "195"%char (String "169"%char EmptyString).

(** A transfer whose spend identifier is 33 such letters, with an asset, no
    comment and no amount. *)
Definition accented_transfer : NewTransfer.t :=
  {| NewTransfer.UserID := 1844235715; NewTransfer.CryptoAsset := TON;
     NewTransfer.Amount := ""; NewTransfer.SpendID := strings_Repeat e_acute 33;
     NewTransfer.Comment := ""; NewTransfer.DisableSendNotification := false |}.

(** * Properties *)

Example sha_abc : fmt_Sprintf_x (sha256.Sum256 (bytes_of_string "abc")) =
  "ba7816bf8f01cfea414140de5dae2223b00361a396177a9cb410ff61f20015ad".
Proof. vm_compute. reflexivity. Qed.
Example sha_empty : fmt_Sprintf_x (sha256.Sum256 (bytes_of_string "")) =
  "e3b0c44298fc1c149afbf4c8996fb92427ae41e4649b934ca495991b7852b855".
Proof. vm_compute. reflexivity. Qed.
Example hmac_rfc4231_2 :
  fmt_Sprintf_x (hmac.Sum {| hmac.key := bytes_of_string "Jefe"; hmac.written := bytes_of_string "what do ya want for nothing?" |} []) =
  "5bdcc146bf60754e6a042426089575c75a003f089d2739839dec58b964ec3843".
Proof. vm_compute. reflexivity. Qed.
Example sha_two_blocks :
  fmt_Sprintf_x (sha256.Sum256
    (bytes_of_string "abcdbcdecdefdefgefghfghighijhijkijkljklmklmnlmnomnopnopq")) =
  "248d6a61d20638b8e5c026930c3e6039a33ce45964ff2167f6ecedd419db06c1".
Proof. vm_compute. reflexivity. Qed.

Example FormatInt_examples :
  map strconv_FormatInt [0; 7; 10; 1844235715; -1; -120; 9223372036854775807; -9223372036854775808]
  = ["0"; "7"; "10"; "1844235715"; "-1"; "-120"; "9223372036854775807"; "-9223372036854775808"].
Proof. vm_compute. reflexivity. Qed.

Example canonical_signature_key :
  CanonicalMIMEHeaderKey "crypto-pay-api-signature" = signature_key.
Proof. reflexivity. Qed.

(** ** Lengths of digests and signatures *)

Lemma len_zero (s : string) : len s = 0 <-> s = "".
Proof.
  unfold len. destruct s; simpl; split; intros E; try reflexivity; try discriminate; lia.
Qed.

Lemma sha256_round_length st kw : length st = 8%nat -> length (sha256.round st kw) = 8%nat.
Proof.
  intros L.
  do 8 (destruct st as [|? st]; [discriminate L|]).
  destruct st; [reflexivity | discriminate L].
Qed.

Lemma sha256_rounds_length kws : forall st,
  length st = 8%nat -> length (fold_left sha256.round kws st) = 8%nat.
Proof.
  induction kws as [|kw kws IH]; intros st L; simpl; [exact L|].
  apply IH, sha256_round_length, L.
Qed.

Lemma sha256_block_length st blk : length st = 8%nat -> length (sha256.block st blk) = 8%nat.
Proof.
  intros L. unfold sha256.block.
  rewrite List.length_map, List.length_combine, sha256_rounds_length by exact L.
  rewrite L. reflexivity.
Qed.

Lemma sha256_blocks_length blks : forall st,
  length st = 8%nat -> length (fold_left sha256.block blks st) = 8%nat.
Proof.
  induction blks as [|b blks IH]; intros st L; simpl; [exact L|].
  apply IH, sha256_block_length, L.
Qed.

Lemma sha256_digest_length msg : length (sha256.digest msg) = 32%nat.
Proof.
  unfold sha256.digest.
  pose proof (sha256_blocks_length
                (sha256.chunks (length (sha256.pad msg)) 64 (sha256.pad msg))
                sha256.H0 eq_refl) as L.
  destruct (fold_left sha256.block _ sha256.H0) as [|? st]; [discriminate L|].
  do 7 (destruct st as [|? st]; [discriminate L|]).
  destruct st; [reflexivity | discriminate L].
Qed.

Lemma fmt_Sprintf_x_length b : String.length (fmt_Sprintf_x b) = (2 * length b)%nat.
Proof. induction b as [|c b IH]; simpl; [reflexivity | rewrite IH; lia]. Qed.

Lemma webhook_signature_len T B : len (webhook_signature T B) = 64.
Proof.
  unfold webhook_signature, hex, HMAC_SHA256, hmac.Sum, len.
  rewrite fmt_Sprintf_x_length. simpl app.
  rewrite List.length_map, sha256_digest_length. reflexivity.
Qed.

(** ** The webhook verifier *)

Lemma Header_Get_signature (h : Header) :
  Header_Get h "crypto-pay-api-signature" =
  match h !! signature_key with Some (v :: _) => v | _ => "" end.
Proof. reflexivity. Qed.

(** The four ways out of [HandleUpdate], with the trace each leaves. *)
Lemma HandleUpdate_cases `{GoLib} (cb : cryptobot) (r : Request.t) (tr : list event) :
  let sig := Header_Get (Request.Header r) "crypto-pay-api-signature" in
  let B := delivers (Request.Body r) in
  HandleUpdate cb r tr =
    if (len sig =? 0)%Z then ((Update.zero, Some SignatureMissingError), tr)
    else
      match fails (Request.Body r) with
      | Some e =>
          ((Update.zero, Some (BodyReadError e)), tr ++ [io_ReadAll_event (Request.Body r)])
      | None =>
          if String.eqb sig (webhook_signature (token cb) B) then
            (match json_decode_Update B Update.zero with
             | (u, None) => (u, None)
             | (_, Some e) => (Update.zero, Some (UnparseableUpdateError e))
             end,
             tr ++ [io_ReadAll_event (Request.Body r); json_Unmarshal_event B])
          else
            ((Update.zero, Some SignatureMismatchError),
             tr ++ [io_ReadAll_event (Request.Body r)])
      end.
Proof.
  intros sig B. unfold HandleUpdate. fold sig.
  destruct (len sig =? 0)%Z; [reflexivity|].
  unfold io_ReadAll, bind, emit, ret. fold B.
  destruct (fails (Request.Body r)) as [e|]; [reflexivity|].
  unfold hmac_Write, hmac.New. cbn [hmac.key hmac.written app].
  change (fmt_Sprintf_x (hmac.Sum {| hmac.key := sha256.Sum256 (bytes_of_string (token cb));
                                     hmac.written := B |} []))
    with (webhook_signature (token cb) B).
  destruct (String.eqb sig (webhook_signature (token cb) B)); cbn [negb]; [|reflexivity].
  unfold json_Unmarshal_Update, bind, emit, ret.
  rewrite <- app_assoc. cbn [app].
  destruct (json_decode_Update B Update.zero) as [u [e|]]; reflexivity.
Qed.

(** C1. When the signature header of a webhook request with body [B] is the
    lowercase hexadecimal form of HMAC-SHA256 keyed by SHA256 of the token
    over [B], [HandleUpdate] passes the signature stage and returns what
    decoding [B] gives: the decoded update and no error (and, should [B] not
    decode, the decoding error, never a signature error). For every other
    header value it returns a signature error and the zero update: the
    missing-signature error for the empty value, the verification failure
    for all others. *)
Theorem HandleUpdate_signature `{GoLib} (cb : cryptobot) (r : Request.t)
    (B : list byte) (sig : string) (tr : list event) :
  Request.Body r = bytes_NewReader B ->
  Header_Get (Request.Header r) "crypto-pay-api-signature" = sig ->
  (sig = webhook_signature (token cb) B ->
     (forall u, json_decode_Update B Update.zero = (u, None) ->
        fst (HandleUpdate cb r tr) = (u, None)) /\
     (forall u e, json_decode_Update B Update.zero = (u, Some e) ->
        fst (HandleUpdate cb r tr) = (Update.zero, Some (UnparseableUpdateError e)))) /\
  (sig <> webhook_signature (token cb) B ->
     fst (HandleUpdate cb r tr) =
       (Update.zero,
        Some (if (len sig =? 0)%Z then SignatureMissingError else SignatureMismatchError))).
Proof.
  intros HB Hsig. rewrite HandleUpdate_cases, Hsig, HB. cbn [delivers fails bytes_NewReader].
  split.
  - intros ->. rewrite webhook_signature_len, String.eqb_refl. cbn [Z.eqb].
    split; [intros u Hu | intros u e Hu]; rewrite Hu; reflexivity.
  - intros Hne. destruct (len sig =? 0)%Z; [reflexivity|].
    destruct (String.eqb_spec sig (webhook_signature (token cb) B)); [contradiction | reflexivity].
Qed.

(** C3. A webhook request that lacks the signature header, or carries it
    with no value or with an empty first value, gets the missing-signature
    error and the trace is left as it was: the body is not read. *)
Theorem HandleUpdate_missing_signature `{GoLib} (cb : cryptobot) (r : Request.t)
    (tr : list event) :
  Request.Header r !! signature_key = None \/
  Request.Header r !! signature_key = Some [] \/
  (exists vs, Request.Header r !! signature_key = Some ("" :: vs)) ->
  HandleUpdate cb r tr = ((Update.zero, Some SignatureMissingError), tr) /\
  forallb (fun e => negb (is_ReadAll e)) (skipn (length tr) (snd (HandleUpdate cb r tr))) = true.
Proof.
  intros Hh.
  assert (Hsig : Header_Get (Request.Header r) "crypto-pay-api-signature" = "").
  { rewrite Header_Get_signature. destruct Hh as [-> | [-> | [vs ->]]]; reflexivity. }
  rewrite HandleUpdate_cases, Hsig. cbn [len String.length Z.of_nat Z.eqb snd].
  split; [reflexivity|].
  rewrite skipn_all. reflexivity.
Qed.

(** C4. [HandleUpdate] asks for the body to be decoded only after the
    comparison of the signature with the MAC of the body that was read has
    succeeded. On a mismatch it returns the verification failure and the
    trace shows the read of the body and nothing else; a body that does not
    decode after a match gives the unparseable-update error, which is
    neither of the signature errors. *)
Theorem HandleUpdate_decode_after_match `{GoLib} (cb : cryptobot) (r : Request.t)
    (tr : list event) :
  let sig := Header_Get (Request.Header r) "crypto-pay-api-signature" in
  let B := delivers (Request.Body r) in
  (forall data, In (json_Unmarshal_event data) (snd (HandleUpdate cb r [])) ->
     fails (Request.Body r) = None /\ sig = webhook_signature (token cb) B /\ data = B) /\
  (fails (Request.Body r) = None -> sig <> "" -> sig <> webhook_signature (token cb) B ->
     HandleUpdate cb r tr =
       ((Update.zero, Some SignatureMismatchError), tr ++ [io_ReadAll_event (Request.Body r)])) /\
  (fails (Request.Body r) = None -> sig = webhook_signature (token cb) B ->
     forall u e, json_decode_Update B Update.zero = (u, Some e) ->
       fst (HandleUpdate cb r tr) = (Update.zero, Some (UnparseableUpdateError e)) /\
       UnparseableUpdateError e <> SignatureMismatchError /\
       UnparseableUpdateError e <> SignatureMissingError).
Proof.
  intros sig B. rewrite !HandleUpdate_cases. fold sig B.
  split; [|split].
  - intros data Hin.
    destruct (len sig =? 0)%Z; [destruct Hin|].
    destruct (fails (Request.Body r)) as [e|].
    { cbn in Hin. destruct Hin as [E|[]]; discriminate E. }
    destruct (String.eqb_spec sig (webhook_signature (token cb) B)) as [E|NE].
    + cbn in Hin. destruct Hin as [E'|[E'|[]]]; [discriminate E'|].
      injection E' as <-. auto.
    + cbn in Hin. destruct Hin as [E'|[]]; discriminate E'.
  - intros Hf Hne Hmis. rewrite Hf.
    destruct (Z.eqb_spec (len sig) 0) as [E|_]; [apply len_zero in E; contradiction|].
    destruct (String.eqb_spec sig (webhook_signature (token cb) B)); [contradiction|reflexivity].
  - intros Hf Hm u e Hu. rewrite Hf, Hm, webhook_signature_len, String.eqb_refl, Hu.
    cbn [Z.eqb fst]. repeat split; discriminate.
Qed.

(** C10. Whenever [HandleUpdate] returns an error, the update returned with
    it is the zero update, field by field, and the error is one of: missing
    signature, failed read of the body, verification failure, unparseable
    update. *)
Theorem HandleUpdate_error_zero_update `{GoLib} (cb : cryptobot) (r : Request.t)
    (tr : list event) (u : Update.t) (e : error) :
  fst (HandleUpdate cb r tr) = (u, Some e) ->
  u = Update.zero /\
  (Update.ID u = 0 /\ Update.Type_ u = "" /\ Update.RequestDate u = "" /\
   Update.Payload u = Invoice.zero) /\
  (e = SignatureMissingError \/ (exists c, e = BodyReadError c) \/
   e = SignatureMismatchError \/ (exists c, e = UnparseableUpdateError c)).
Proof.
  rewrite HandleUpdate_cases.
  destruct (len _ =? 0)%Z.
  { cbn [fst]. intros [= <- <-]. repeat split; auto. }
  destruct (fails (Request.Body r)) as [c|].
  { cbn [fst]. intros [= <- <-]. repeat split; eauto. }
  destruct (String.eqb _ _).
  - cbn [fst]. destruct (json_decode_Update _ _) as [u' [c|]].
    + intros [= <- <-]. repeat split; eauto.
    + intros [=].
  - cbn [fst]. intros [= <- <-]. repeat split; auto.
Qed.

Lemma HandleUpdate_signature_witness :
  fst (@HandleUpdate Demo.lib (Demo.cb [])
         (Demo.webhook [webhook_signature "API_TOKEN" Demo.update1]
                       (bytes_NewReader Demo.update1)) [])
    = (Demo.update_with_ID_1, None) /\
  fst (@HandleUpdate Demo.lib (Demo.cb [])
         (Demo.webhook ["00"] (bytes_NewReader Demo.update1)) [])
    = (Update.zero, Some SignatureMismatchError).
Proof.
  split.
  - refine (proj1 (proj1 (@HandleUpdate_signature Demo.lib (Demo.cb [])
             (Demo.webhook [webhook_signature "API_TOKEN" Demo.update1]
                           (bytes_NewReader Demo.update1))
             Demo.update1 (webhook_signature "API_TOKEN" Demo.update1) [] _ _) _)
             Demo.update_with_ID_1 _).
    + reflexivity.
    + vm_compute. reflexivity.
    + reflexivity.
    + vm_compute. reflexivity.
  - refine (proj2 (@HandleUpdate_signature Demo.lib (Demo.cb [])
             (Demo.webhook ["00"] (bytes_NewReader Demo.update1))
             Demo.update1 "00" [] _ _) _).
    + reflexivity.
    + vm_compute. reflexivity.
    + vm_compute. discriminate.
Defined.

Lemma HandleUpdate_missing_signature_witness :
  @HandleUpdate Demo.lib (Demo.cb [])
     (Demo.webhook [""] {| delivers := Demo.update1; fails := Some (lib_error "unexpected EOF") |}) []
  = ((Update.zero, Some SignatureMissingError), []).
Proof.
  refine (proj1 (@HandleUpdate_missing_signature Demo.lib (Demo.cb []) _ [] _)).
  right; right. exists []. vm_compute. reflexivity.
Defined.

Lemma HandleUpdate_decode_after_match_witness :
  @HandleUpdate Demo.lib (Demo.cb [])
     (Demo.webhook ["00"] (bytes_NewReader Demo.update1)) []
  = ((Update.zero, Some SignatureMismatchError),
     [io_ReadAll_event (bytes_NewReader Demo.update1)]).
Proof.
  refine (proj1 (proj2 (@HandleUpdate_decode_after_match Demo.lib (Demo.cb [])
            (Demo.webhook ["00"] (bytes_NewReader Demo.update1)) [])) _ _ _).
  - reflexivity.
  - vm_compute. discriminate.
  - vm_compute. discriminate.
Defined.

Lemma HandleUpdate_error_zero_update_witness :
  Update.zero = Update.zero /\
  (0 = 0 /\ "" = "" /\ "" = "" /\ Invoice.zero = Invoice.zero) /\
  (UnparseableUpdateError (lib_error "invalid character looking for beginning of value")
     = SignatureMissingError \/
   (exists c, UnparseableUpdateError (lib_error "invalid character looking for beginning of value")
     = BodyReadError c) \/
   UnparseableUpdateError (lib_error "invalid character looking for beginning of value")
     = SignatureMismatchError \/
   (exists c, UnparseableUpdateError (lib_error "invalid character looking for beginning of value")
     = UnparseableUpdateError c)).
Proof.
  refine (@HandleUpdate_error_zero_update Demo.lib (Demo.cb [])
            (Demo.webhook [webhook_signature "API_TOKEN" (bytes_of_string "garbage")]
                          (bytes_NewReader (bytes_of_string "garbage"))) []
            Update.zero
            (UnparseableUpdateError (lib_error "invalid character looking for beginning of value")) _).
  vm_compute. reflexivity.
Defined.

(** ** The list-field encoding *)

Lemma fold_append {A B} (f : A -> B) (l : list A) : forall init,
  fold_left (fun acc x => append acc (f x)) l init = init ++ map f l.
Proof.
  induction l as [|x l IH]; intros init; simpl.
  - symmetry. apply app_nil_r.
  - rewrite IH. unfold append. rewrite <- app_assoc. reflexivity.
Qed.

(** The slice the three options encoders join: as many empty strings as
    there are identifiers, then the identifiers. *)
Lemma ids_slice (l : list Z) :
  fold_left (fun ids id => append ids (strconv_FormatInt id)) l (make_strings (length l))
  = repeat "" (length l) ++ map strconv_FormatInt l.
Proof. apply fold_append. Qed.

Lemma assets_slice (l : list string) :
  fold_left (fun as_ a => append as_ a) l [] = l.
Proof. rewrite (fold_append (fun a => a)). simpl. apply map_id. Qed.

(** Joining a slice that starts with an empty string and goes on starts
    with the separator. *)
Lemma strings_Join_leading (n : nat) (x : string) (rest : list string) :
  strings_Join (repeat "" (S n) ++ x :: rest) "," =
  String "," (strings_Join (repeat "" n ++ x :: rest) ",").
Proof.
  simpl repeat. simpl app. cbn [strings_Join].
  destruct (repeat "" n ++ x :: rest) eqn:E; [|reflexivity].
  destruct n; discriminate E.
Qed.

(** A field is either left out or read back as it was put in. *)
Ltac split_fields :=
  repeat match goal with
         | |- context [if ?b then _ else _] => destruct b
         end.

Lemma wire_accepted_assets (in_ : NewInvoice.t) :
  wire_field "accepted_assets" (NewInvoice_MarshalJSON in_) =
  let s := strings_Join (NewInvoice.AcceptedCryptoAssets in_) "," in
  if (len s =? 0)%Z then None else Some (JString s).
Proof.
  unfold NewInvoice_MarshalJSON, tempNewInvoice.Marshal, encode_struct, wire_field.
  rewrite assets_slice.
  cbn -[len strings_Join Z.eqb].
  generalize (strings_Join (NewInvoice.AcceptedCryptoAssets in_) ","). intros s.
  destruct (len s =? 0)%Z; split_fields; reflexivity.
Qed.

Lemma wire_invoice_ids (no : InvoiceOptions.t) :
  wire_field "invoice_ids" (InvoiceOptions_MarshalJSON no) =
  let ids := InvoiceOptions.InvoiceIDs no in
  let s := strings_Join (repeat "" (length ids) ++ map strconv_FormatInt ids) "," in
  if (len s =? 0)%Z then None else Some (JString s).
Proof.
  unfold InvoiceOptions_MarshalJSON, tempInOps.Marshal, encode_struct, wire_field.
  rewrite ids_slice.
  cbn -[len strings_Join Z.eqb repeat map].
  generalize (strings_Join (repeat "" (length (InvoiceOptions.InvoiceIDs no)) ++
                            map strconv_FormatInt (InvoiceOptions.InvoiceIDs no)) ",").
  intros s. destruct (len s =? 0)%Z; split_fields; reflexivity.
Qed.

Lemma wire_check_ids (co : CheckOptions.t) :
  wire_field "check_ids" (CheckOptions_MarshalJSON co) =
  let ids := CheckOptions.CheckIDs co in
  let s := strings_Join (repeat "" (length ids) ++ map strconv_FormatInt ids) "," in
  if (len s =? 0)%Z then None else Some (JString s).
Proof.
  unfold CheckOptions_MarshalJSON, tempCheckOps.Marshal, encode_struct, wire_field.
  rewrite ids_slice.
  cbn -[len strings_Join Z.eqb repeat map].
  generalize (strings_Join (repeat "" (length (CheckOptions.CheckIDs co)) ++
                            map strconv_FormatInt (CheckOptions.CheckIDs co)) ",").
  intros s. destruct (len s =? 0)%Z; split_fields; reflexivity.
Qed.

Lemma wire_transfer_ids (to : TransferOptions.t) :
  wire_field "transfer_ids" (TransferOptions_MarshalJSON to) =
  let ids := TransferOptions.TransferIDs to in
  let s := strings_Join (repeat "" (length ids) ++ map strconv_FormatInt ids) "," in
  if (len s =? 0)%Z then None else Some (JString s).
Proof.
  unfold TransferOptions_MarshalJSON, tempTrOps.Marshal, encode_struct, wire_field.
  rewrite ids_slice.
  cbn -[len strings_Join Z.eqb repeat map].
  generalize (strings_Join (repeat "" (length (TransferOptions.TransferIDs to)) ++
                            map strconv_FormatInt (TransferOptions.TransferIDs to)) ",").
  intros s. destruct (len s =? 0)%Z; split_fields; reflexivity.
Qed.

Lemma len_String (c : ascii) (s : string) : (len (String c s) =? 0)%Z = false.
Proof. unfold len. simpl String.length. apply Z.eqb_neq. lia. Qed.

Lemma leading_comma (id : Z) (ids : list Z) :
  exists s,
    strings_Join (repeat "" (length (id :: ids)) ++ map strconv_FormatInt (id :: ids)) ","
    = String "," s.
Proof.
  simpl length. cbn [map]. rewrite strings_Join_leading. eauto.
Qed.

(** C2. The claim fails on the three identifier lists. Their encoders start
    from a slice that already holds one empty string per identifier and
    append the identifiers to it, so the field of a non-empty list begins
    with a comma: [TransferIDs = [5]] is sent as [",5"], [[1; 2; 3]] as
    [",,,1,2,3"]. The accepted-asset list, built from a nil slice, is sent
    as the claim says. *)
Theorem ID_lists_sent_with_leading_commas :
  (forall no id ids, InvoiceOptions.InvoiceIDs no = id :: ids ->
     exists s, wire_field "invoice_ids" (InvoiceOptions_MarshalJSON no)
               = Some (JString (String "," s))) /\
  (forall co id ids, CheckOptions.CheckIDs co = id :: ids ->
     exists s, wire_field "check_ids" (CheckOptions_MarshalJSON co)
               = Some (JString (String "," s))) /\
  (forall to id ids, TransferOptions.TransferIDs to = id :: ids ->
     exists s, wire_field "transfer_ids" (TransferOptions_MarshalJSON to)
               = Some (JString (String "," s))) /\
  wire_field "transfer_ids"
    (TransferOptions_MarshalJSON
       {| TransferOptions.CryptoAsset := ""; TransferOptions.TransferIDs := [5];
          TransferOptions.SpendID := ""; TransferOptions.Offset := 0;
          TransferOptions.Count := 0 |}) = Some (JString ",5") /\
  wire_field "invoice_ids"
    (InvoiceOptions_MarshalJSON
       {| InvoiceOptions.CryptoAsset := ""; InvoiceOptions.Fiat := "";
          InvoiceOptions.InvoiceIDs := [1; 2; 3]; InvoiceOptions.Status := "";
          InvoiceOptions.Offset := 0; InvoiceOptions.Count := 0 |})
    = Some (JString ",,,1,2,3") /\
  (forall in_,
     wire_field "accepted_assets" (NewInvoice_MarshalJSON in_) =
     let s := strings_Join (NewInvoice.AcceptedCryptoAssets in_) "," in
     if (len s =? 0)%Z then None else Some (JString s)).
Proof.
  repeat split.
  - intros no id ids E. rewrite wire_invoice_ids, E. cbv zeta.
    destruct (leading_comma id ids) as [s ->]. rewrite len_String. eauto.
  - intros co id ids E. rewrite wire_check_ids, E. cbv zeta.
    destruct (leading_comma id ids) as [s ->]. rewrite len_String. eauto.
  - intros to id ids E. rewrite wire_transfer_ids, E. cbv zeta.
    destruct (leading_comma id ids) as [s ->]. rewrite len_String. eauto.
  - apply wire_accepted_assets.
Qed.

Lemma ID_lists_sent_with_leading_commas_witness :
  exists s,
    wire_field "check_ids"
      (CheckOptions_MarshalJSON
         {| CheckOptions.CryptoAsset := TON; CheckOptions.CheckIDs := [42; 43];
            CheckOptions.Status := ""; CheckOptions.Offset := 0; CheckOptions.Count := 10 |})
    = Some (JString (String "," s)).
Proof.
  refine (proj1 (proj2 ID_lists_sent_with_leading_commas) _ 42 [43] _).
  reflexivity.
Defined.

(** C8. An empty list leaves its field out of the encoded request, for the
    accepted assets and for the three identifier lists alike. *)
Theorem empty_list_field_omitted :
  (forall in_, NewInvoice.AcceptedCryptoAssets in_ = [] ->
     wire_field "accepted_assets" (NewInvoice_MarshalJSON in_) = None) /\
  (forall no, InvoiceOptions.InvoiceIDs no = [] ->
     wire_field "invoice_ids" (InvoiceOptions_MarshalJSON no) = None) /\
  (forall co, CheckOptions.CheckIDs co = [] ->
     wire_field "check_ids" (CheckOptions_MarshalJSON co) = None) /\
  (forall to, TransferOptions.TransferIDs to = [] ->
     wire_field "transfer_ids" (TransferOptions_MarshalJSON to) = None).
Proof.
  repeat split.
  - intros in_ E. rewrite wire_accepted_assets, E. reflexivity.
  - intros no E. rewrite wire_invoice_ids, E. reflexivity.
  - intros co E. rewrite wire_check_ids, E. reflexivity.
  - intros to E. rewrite wire_transfer_ids, E. reflexivity.
Qed.

Lemma empty_list_field_omitted_witness :
  wire_field "transfer_ids"
    (TransferOptions_MarshalJSON
       {| TransferOptions.CryptoAsset := USDT; TransferOptions.TransferIDs := [];
          TransferOptions.SpendID := ""; TransferOptions.Offset := 0;
          TransferOptions.Count := 0 |}) = None /\
  wire_field "accepted_assets"
    (NewInvoice_MarshalJSON
       {| NewInvoice.CurrencyType := Crypto; NewInvoice.CryptoAsset := USDT;
          NewInvoice.Fiat := ""; NewInvoice.AcceptedCryptoAssets := [];
          NewInvoice.Amount := "5"; NewInvoice.Description := "";
          NewInvoice.HiddenMessage := ""; NewInvoice.PaidBtnName := "";
          NewInvoice.PaidBtnUrl := ""; NewInvoice.Payload := "";
          NewInvoice.AllowComments := true; NewInvoice.AllowAnonymous := false;
          NewInvoice.ExpiresIn := 0 |}) = None.
Proof.
  split.
  - refine (proj2 (proj2 (proj2 empty_list_field_omitted)) _ _). reflexivity.
  - refine (proj1 empty_list_field_omitted _ _). reflexivity.
Defined.

(** ** Validation *)

(** Each validation function returns the join of the violated rules of its
    table, in the order of the table, or nil when there is none. *)
Lemma validateNewInvoice_spec v :
  validateNewInvoice v = join_or_nil (violations NewInvoice_rules v).
Proof.
  unfold validateNewInvoice, NewInvoice_rules, violations, append.
  split_fields; reflexivity.
Qed.

Lemma validateInvoiceOptions_spec v :
  validateInvoiceOptions v = join_or_nil (violations InvoiceOptions_rules v).
Proof.
  unfold validateInvoiceOptions, InvoiceOptions_rules, violations, append.
  split_fields; reflexivity.
Qed.

Lemma validateNewCheck_spec v :
  validateNewCheck v = join_or_nil (violations NewCheck_rules v).
Proof.
  unfold validateNewCheck, NewCheck_rules, violations, append.
  split_fields; reflexivity.
Qed.

Lemma validateCheckOptions_spec v :
  validateCheckOptions v = join_or_nil (violations CheckOptions_rules v).
Proof.
  unfold validateCheckOptions, CheckOptions_rules, violations, append.
  split_fields; reflexivity.
Qed.

Lemma validateNewTransfer_spec v :
  validateNewTransfer v = join_or_nil (violations NewTransfer_rules v).
Proof.
  unfold validateNewTransfer, NewTransfer_rules, violations, append.
  split_fields; reflexivity.
Qed.

Lemma validateTransferOptions_spec v :
  validateTransferOptions v = join_or_nil (violations TransferOptions_rules v).
Proof.
  unfold validateTransferOptions, TransferOptions_rules, violations, append.
  split_fields; reflexivity.
Qed.

Section Rules.
Context {A : Type}.
Implicit Types (rules : list (rule A)) (x : A).

Lemma violations_In rules x violated msg :
  In (violated, msg) rules -> violated x = true ->
  In (errors_New msg) (violations rules x).
Proof.
  induction rules as [|[v m] rules IH]; intros Hin Hv; [destruct Hin|].
  destruct Hin as [[= -> ->]|Hin]; cbn [violations].
  - rewrite Hv. left. reflexivity.
  - destruct (v x); [right|]; auto.
Qed.


Lemma join_or_nil_reports rules x violated msg :
  In (violated, msg) rules -> violated x = true ->
  reports (join_or_nil (violations rules x)) msg.
Proof.
  intros Hin Hv. pose proof (violations_In rules x violated msg Hin Hv) as H.
  exists (violations rules x). split; [|exact H].
  unfold join_or_nil. destruct (violations rules x); [destruct H | reflexivity].
Qed.

Lemma join_or_nil_None rules x :
  (forall violated msg, In (violated, msg) rules -> violated x = false) ->
  join_or_nil (violations rules x) = None.
Proof.
  intros Hall. destruct (violations rules x) as [|e errs] eqn:E; [reflexivity|].
  assert (In e (violations rules x)) as Hin by (rewrite E; left; reflexivity).
  clear E. exfalso.
  induction rules as [|[v m] rules IH]; cbn [violations] in Hin; [destruct Hin|].
  destruct (v x) eqn:Hv.
  - rewrite (Hall v m) in Hv by (left; reflexivity). discriminate Hv.
  - apply IH; [|exact Hin]. intros v' m' H'. apply (Hall v' m'). right. exact H'.
Qed.
End Rules.

(** C6. The error of a validation function is one join that holds the
    message of every rule the request violates: this holds for the six
    validation functions, and for the request of the example (no currency
    type, no amount, a payload over 4096 bytes) the join holds the three
    messages. *)
Theorem validation_reports_every_violation :
  (forall v violated msg, In (violated, msg) NewInvoice_rules -> violated v = true ->
     reports (validateNewInvoice v) msg) /\
  (forall v violated msg, In (violated, msg) InvoiceOptions_rules -> violated v = true ->
     reports (validateInvoiceOptions v) msg) /\
  (forall v violated msg, In (violated, msg) NewCheck_rules -> violated v = true ->
     reports (validateNewCheck v) msg) /\
  (forall v violated msg, In (violated, msg) CheckOptions_rules -> violated v = true ->
     reports (validateCheckOptions v) msg) /\
  (forall v violated msg, In (violated, msg) NewTransfer_rules -> violated v = true ->
     reports (validateNewTransfer v) msg) /\
  (forall v violated msg, In (violated, msg) TransferOptions_rules -> violated v = true ->
     reports (validateTransferOptions v) msg) /\
  (forall v, NewInvoice.CurrencyType v = "" -> NewInvoice.Amount v = "" ->
     4096 < len (NewInvoice.Payload v) ->
     exists errs, validateNewInvoice v = Some (errors_Join errs) /\
       In (errors_New "CurrencyType cannot be empty") errs /\
       In (errors_New "Amount cannot be empty") errs /\
       In (errors_New "Payload should not exceed 4096 characters") errs).
Proof.
  repeat split.
  - intros v. rewrite validateNewInvoice_spec. apply join_or_nil_reports.
  - intros v. rewrite validateInvoiceOptions_spec. apply join_or_nil_reports.
  - intros v. rewrite validateNewCheck_spec. apply join_or_nil_reports.
  - intros v. rewrite validateCheckOptions_spec. apply join_or_nil_reports.
  - intros v. rewrite validateNewTransfer_spec. apply join_or_nil_reports.
  - intros v. rewrite validateTransferOptions_spec. apply join_or_nil_reports.
  - intros v Hc Ha Hp. rewrite validateNewInvoice_spec.
    exists (violations NewInvoice_rules v).
    assert (Hp' : (4096 <? len (NewInvoice.Payload v))%Z = true) by (apply Z.ltb_lt; exact Hp).
    assert (In (errors_New "CurrencyType cannot be empty") (violations NewInvoice_rules v)) as H1.
    { eapply violations_In; [left; reflexivity|]. cbv beta. rewrite Hc. reflexivity. }
    repeat split; try exact H1.
    + unfold join_or_nil. destruct (violations NewInvoice_rules v); [destruct H1|reflexivity].
    + eapply violations_In; [do 4 right; left; reflexivity|]. cbv beta. rewrite Ha. reflexivity.
    + eapply violations_In; [do 6 right; left; reflexivity|]. exact Hp'.
Qed.

Lemma validation_reports_every_violation_witness :
  exists errs, validateNewInvoice Demo.bad_invoice = Some (errors_Join errs) /\
    In (errors_New "CurrencyType cannot be empty") errs /\
    In (errors_New "Amount cannot be empty") errs /\
    In (errors_New "Payload should not exceed 4096 characters") errs.
Proof.
  refine (proj2 (proj2 (proj2 (proj2 (proj2 (proj2 validation_reports_every_violation)))))
            Demo.bad_invoice _ _ _).
  - reflexivity.
  - reflexivity.
  - vm_compute. reflexivity.
Defined.

(** [nt] with another amount. *)
Lemma validateNewTransfer_Amount (nt : NewTransfer.t) (a : string) :
  validateNewTransfer
    {| NewTransfer.UserID := NewTransfer.UserID nt;
       NewTransfer.CryptoAsset := NewTransfer.CryptoAsset nt;
       NewTransfer.Amount := a;
       NewTransfer.SpendID := NewTransfer.SpendID nt;
       NewTransfer.Comment := NewTransfer.Comment nt;
       NewTransfer.DisableSendNotification := NewTransfer.DisableSendNotification nt |}
  = validateNewTransfer nt.
Proof. reflexivity. Qed.

Lemma characters_le_len (s : string) : 0 <= characters s <= len s.
Proof.
  unfold len. induction s as [|c s IH]; [cbn; lia|].
  cbn [characters String.length]. destruct (utf8_continuation c); lia.
Qed.

(** C9. On the amount the claim holds: the result of [validateNewTransfer]
    does not depend on it, a transfer with an asset, a spend identifier of 1
    to 64 bytes and a comment of at most 1024 bytes passes with the empty
    amount, and [validateNewInvoice] and [validateNewCheck] both report an
    empty amount. On the lengths it fails: the function measures the spend
    identifier and the comment with [len], in bytes, where the claim, the
    comments of the struct and the messages of the function count
    characters. A string has at most as many characters as bytes, and a
    spend identifier of 33 letters of two bytes each, 66 bytes, is refused
    with an asset, no comment and no amount; so is every spend identifier
    over 64 bytes and every comment over 1024 bytes, however few their
    characters. *)
Theorem validateNewTransfer_counts_bytes :
  (NewTransfer.CryptoAsset accented_transfer <> "" /\
   NewTransfer.SpendID accented_transfer <> "" /\
   characters (NewTransfer.SpendID accented_transfer) = 33 /\
   characters (NewTransfer.Comment accented_transfer) = 0 /\
   len (NewTransfer.SpendID accented_transfer) = 66 /\
   validateNewTransfer accented_transfer =
     Some (errors_Join [errors_New "SpendID cannot exceed 64 characters"])) /\
  (forall s, 0 <= characters s <= len s) /\
  (forall nt, 64 < len (NewTransfer.SpendID nt) ->
     reports (validateNewTransfer nt) "SpendID cannot exceed 64 characters") /\
  (forall nt, 1024 < len (NewTransfer.Comment nt) ->
     reports (validateNewTransfer nt) "Comment cannot exceed 1024 characters") /\
  (forall nt,
     NewTransfer.CryptoAsset nt <> "" ->
     NewTransfer.SpendID nt <> "" ->
     len (NewTransfer.SpendID nt) <= 64 ->
     len (NewTransfer.Comment nt) <= 1024 ->
     validateNewTransfer nt = None /\
     validateNewTransfer
       {| NewTransfer.UserID := NewTransfer.UserID nt;
          NewTransfer.CryptoAsset := NewTransfer.CryptoAsset nt;
          NewTransfer.Amount := "";
          NewTransfer.SpendID := NewTransfer.SpendID nt;
          NewTransfer.Comment := NewTransfer.Comment nt;
          NewTransfer.DisableSendNotification := NewTransfer.DisableSendNotification nt |}
       = None) /\
  (forall nt a,
     validateNewTransfer
       {| NewTransfer.UserID := NewTransfer.UserID nt;
          NewTransfer.CryptoAsset := NewTransfer.CryptoAsset nt;
          NewTransfer.Amount := a;
          NewTransfer.SpendID := NewTransfer.SpendID nt;
          NewTransfer.Comment := NewTransfer.Comment nt;
          NewTransfer.DisableSendNotification := NewTransfer.DisableSendNotification nt |}
     = validateNewTransfer nt) /\
  (forall in_, NewInvoice.Amount in_ = "" ->
     reports (validateNewInvoice in_) "Amount cannot be empty") /\
  (forall nc, NewCheck.Amount nc = "" ->
     reports (validateNewCheck nc) "Amount cannot be empty").
Proof.
  split; [|split; [|split; [|split; [|split; [|split; [|split]]]]]].
  - repeat split; first [ discriminate | vm_compute; reflexivity ].
  - exact characters_le_len.
  - intros nt Hl. rewrite validateNewTransfer_spec.
    eapply join_or_nil_reports; [do 2 right; left; reflexivity|].
    cbv beta. apply Z.ltb_lt. exact Hl.
  - intros nt Hl. rewrite validateNewTransfer_spec.
    eapply join_or_nil_reports; [do 3 right; left; reflexivity|].
    cbv beta. apply Z.ltb_lt. exact Hl.
  - intros nt Ha Hs Hs64 Hc.
    assert (Hok : validateNewTransfer nt = None).
    { unfold validateNewTransfer.
      destruct (Z.eqb_spec (len (NewTransfer.CryptoAsset nt)) 0) as [E|_];
        [apply len_zero in E; contradiction|].
      destruct (Z.eqb_spec (len (NewTransfer.SpendID nt)) 0) as [E|_];
        [apply len_zero in E; contradiction|].
      destruct (Z.ltb_spec 64 (len (NewTransfer.SpendID nt))); [lia|].
      destruct (Z.ltb_spec 1024 (len (NewTransfer.Comment nt))); [lia|].
      reflexivity. }
    split; [exact Hok|]. rewrite validateNewTransfer_Amount. exact Hok.
  - intros nt a. apply validateNewTransfer_Amount.
  - intros in_ E. rewrite validateNewInvoice_spec.
    eapply join_or_nil_reports; [do 4 right; left; reflexivity|].
    cbv beta. rewrite E. reflexivity.
  - intros nc E. rewrite validateNewCheck_spec.
    eapply join_or_nil_reports; [right; left; reflexivity|].
    cbv beta. rewrite E. reflexivity.
Qed.

Lemma validateNewTransfer_counts_bytes_witness :
  (NewTransfer.Amount Demo.transfer_without_amount = "" /\
   validateNewTransfer Demo.transfer_without_amount = None) /\
  reports (validateNewTransfer accented_transfer) "SpendID cannot exceed 64 characters".
Proof.
  split.
  - split; [reflexivity|].
    refine (proj1 (proj1 (proj2 (proj2 (proj2 (proj2 validateNewTransfer_counts_bytes))))
              Demo.transfer_without_amount _ _ _ _)).
    + vm_compute. discriminate.
    + vm_compute. discriminate.
    + vm_compute. discriminate.
    + vm_compute. discriminate.
  - refine (proj1 (proj2 (proj2 validateNewTransfer_counts_bytes)) accented_transfer _).
    vm_compute. reflexivity.
Defined.

(** ** The API operations *)

(** The ways out of [makeRequest], with the trace each leaves. *)
Lemma makeRequest_cases `{GoLib} (cb : cryptobot) (method url : string) (r : option Reader)
    (tr : list event) :
  let req :=
    {| Request.Method := method; Request.URL := url;
       Request.Header :=
         Header_Set (Header_Set ∅ "Crypto-Pay-API-Token" (token cb))
                    "Content-Type" "application/json";
       Request.Body := match r with Some r => r | None => http_NoBody end |} in
  makeRequest cb method url r tr =
    match http_NewRequest_error method url with
    | Some e => (([], Some e), tr)
    | None =>
        match client cb req with
        | (_, Some e) => (([], Some e), tr ++ [client_Do_event req])
        | (res, None) =>
            match fails (Response.Body res) with
            | Some e =>
                (([], Some e),
                 tr ++ [client_Do_event req; io_ReadAll_event (Response.Body res)])
            | None =>
                ((delivers (Response.Body res), None),
                 tr ++ [client_Do_event req; io_ReadAll_event (Response.Body res)])
            end
        end
    end.
Proof.
  intros req. unfold makeRequest, http_NewRequest.
  destruct (http_NewRequest_error method url) as [e|]; [reflexivity|].
  cbn [Request.Method Request.URL Request.Header Request.Body].
  fold req. unfold client_Do, io_ReadAll, bind, emit, ret.
  destruct (client cb req) as [res [e|]]; [reflexivity|].
  rewrite <- app_assoc. cbn [app].
  destruct (fails (Response.Body res)); reflexivity.
Qed.



Section Envelope.
Context `{GoLib} (cb : cryptobot).













End Envelope.



(** C7. With [Offset = -1] the three listing operations return nil and the
    validation error, which reports the offset rule, and leave the trace as
    it was: nothing is encoded and no request is sent. *)
Theorem negative_offset_rejected_before_any_effect `{GoLib} (cb : cryptobot)
    (tr : list event) :
  (forall inop, InvoiceOptions.Offset inop = -1 ->
     exists e, GetInvoices cb inop tr = (([], Some e), tr) /\
               reports (Some e) "Offset cannot be less than 0") /\
  (forall ckops, CheckOptions.Offset ckops = -1 ->
     exists e, GetChecks cb ckops tr = (([], Some e), tr) /\
               reports (Some e) "Offset cannot be less than 0") /\
  (forall trops, TransferOptions.Offset trops = -1 ->
     exists e, GetTransfers cb trops tr = (([], Some e), tr) /\
               reports (Some e) "Offset cannot be less than 0").
Proof.
  repeat apply conj.
  - intros inop E.
    assert (R : reports (validateInvoiceOptions inop) "Offset cannot be less than 0").
    { rewrite validateInvoiceOptions_spec.
      eapply join_or_nil_reports; [left; reflexivity|]. cbv beta. rewrite E. reflexivity. }
    unfold GetInvoices. destruct R as (errs & -> & Hin).
    exists (errors_Join errs). split; [reflexivity|]. exists errs. auto.
  - intros ckops E.
    assert (R : reports (validateCheckOptions ckops) "Offset cannot be less than 0").
    { rewrite validateCheckOptions_spec.
      eapply join_or_nil_reports; [left; reflexivity|]. cbv beta. rewrite E. reflexivity. }
    unfold GetChecks. destruct R as (errs & -> & Hin).
    exists (errors_Join errs). split; [reflexivity|]. exists errs. auto.
  - intros trops E.
    assert (R : reports (validateTransferOptions trops) "Offset cannot be less than 0").
    { rewrite validateTransferOptions_spec.
      eapply join_or_nil_reports; [right; left; reflexivity|]. cbv beta. rewrite E. reflexivity. }
    unfold GetTransfers. destruct R as (errs & -> & Hin).
    exists (errors_Join errs). split; [reflexivity|]. exists errs. auto.
Qed.

Lemma negative_offset_rejected_before_any_effect_witness :
  exists e,
    @GetInvoices Demo.lib (Demo.cb Demo.done_true)
      {| InvoiceOptions.CryptoAsset := USDT; InvoiceOptions.Fiat := "";
         InvoiceOptions.InvoiceIDs := []; InvoiceOptions.Status := "";
         InvoiceOptions.Offset := -1; InvoiceOptions.Count := 0 |} []
    = (([], Some e), []) /\
    reports (Some e) "Offset cannot be less than 0".
Proof.
  refine (proj1 (@negative_offset_rejected_before_any_effect Demo.lib
                   (Demo.cb Demo.done_true) []) _ _).
  reflexivity.
Defined.

(** * Further properties *)

(** ** Client construction *)

(** X1. [NewClient] gives a client exactly when the token and the endpoint
    are both non-empty; the client then holds the token and the endpoint of
    the configuration, and its HTTP client or the default one when there is
    none. A missing token is reported before a missing endpoint, and an
    error comes with no client. *)
Theorem NewClient_requires_token_and_endpoint (dflt : HTTPClient) (cf : Config.t) :
  (Config.Token cf = "" ->
     NewClient dflt cf = (None, Some (errors_New "no token was provided for crypto bot"))) /\
  (Config.Token cf <> "" -> Config.Endpoint cf = "" ->
     NewClient dflt cf = (None, Some (errors_New "no endpoint was provided for crypto bot"))) /\
  (Config.Token cf <> "" -> Config.Endpoint cf <> "" ->
     NewClient dflt cf =
       (Some {| token := Config.Token cf; endpoint := Config.Endpoint cf;
                client := default dflt (Config.Client cf) |}, None)) /\
  (forall cb, fst (NewClient dflt cf) = Some cb ->
     token cb <> "" /\ endpoint cb <> "" /\ snd (NewClient dflt cf) = None).
Proof.
  unfold NewClient.
  destruct (Z.eqb_spec (len (Config.Token cf)) 0) as [Et|Et];
    [apply len_zero in Et | rewrite len_zero in Et].
  { split; [reflexivity|]. split; [contradiction|]. split; [contradiction|].
    intros cb' [=]. }
  destruct (Z.eqb_spec (len (Config.Endpoint cf)) 0) as [Ee|Ee];
    [apply len_zero in Ee | rewrite len_zero in Ee].
  { split; [contradiction|]. split; [reflexivity|]. split; [contradiction|].
    intros cb' [=]. }
  split; [contradiction|]. split; [contradiction|]. split.
  - intros _ _. destruct (Config.Client cf) eqn:E; cbn; rewrite ?E; reflexivity.
  - intros cb' Hcb.
    destruct (Config.Client cf) eqn:E; cbn in Hcb |- *; injection Hcb as <-; cbn; auto.
Qed.

Lemma NewClient_requires_token_and_endpoint_witness :
  NewClient (Demo.answers [])
    {| Config.Token := "API_TOKEN"; Config.Endpoint := ""; Config.Client := None |}
  = (None, Some (errors_New "no endpoint was provided for crypto bot")) /\
  NewClient (Demo.answers [])
    {| Config.Token := "API_TOKEN"; Config.Endpoint := Testnet; Config.Client := None |}
  = (Some {| token := "API_TOKEN"; endpoint := Testnet; client := Demo.answers [] |}, None).
Proof.
  split.
  - refine (proj1 (proj2 (NewClient_requires_token_and_endpoint (Demo.answers [])
              {| Config.Token := "API_TOKEN"; Config.Endpoint := "";
                 Config.Client := None |})) _ _).
    + discriminate.
    + reflexivity.
  - refine (proj1 (proj2 (proj2 (NewClient_requires_token_and_endpoint (Demo.answers [])
              {| Config.Token := "API_TOKEN"; Config.Endpoint := Testnet;
                 Config.Client := None |}))) _ _).
    + discriminate.
    + discriminate.
Defined.

(** ** What the operations send, and what they return on failure *)

Lemma token_header (tok : string) :
  let h := Header_Set (Header_Set ∅ "Crypto-Pay-API-Token" tok)
                      "Content-Type" "application/json" in
  Header_Get h "Crypto-Pay-API-Token" = tok /\
  Header_Get h "Content-Type" = "application/json".
Proof.
  unfold Header_Get, Header_Set.
  change (CanonicalMIMEHeaderKey "Crypto-Pay-API-Token") with "Crypto-Pay-Api-Token".
  change (CanonicalMIMEHeaderKey "Content-Type") with "Content-Type".
  cbv zeta. split.
  - rewrite lookup_insert_ne by discriminate. rewrite lookup_insert_eq. reflexivity.
  - rewrite lookup_insert_eq. reflexivity.
Qed.

(** The steps of an operation, one case for each way out; [fin] closes a case. *)
Ltac validated fin :=
  repeat match goal with
         | |- context [match ?v with Some _ => _ | None => _ end] =>
             lazymatch v with
             | validateNewInvoice _ => idtac
             | validateInvoiceOptions _ => idtac
             | validateNewCheck _ => idtac
             | validateCheckOptions _ => idtac
             | validateNewTransfer _ => idtac
             | validateTransferOptions _ => idtac
             end;
             destruct v; [fin|]
         end.

Ltac op_cases fin :=
  validated fin;
  let murl := fresh "murl" in
  let Hurl := fresh "Hurl" in
  destruct (url_JoinPath _ _) as [murl [?|]] eqn:Hurl; [fin|];
  unfold json_Marshal, bind, emit, ret; cbn [app];
  rewrite makeRequest_cases;
  destruct (http_NewRequest_error _ _); [fin|];
  let res0 := fresh "res0" in
  let Hcl := fresh "Hcl" in
  destruct (client _ _) as [res0 [?|]] eqn:Hcl; [fin|];
  let Hf := fresh "Hf" in
  destruct (fails (Response.Body res0)) eqn:Hf; [fin|];
  unfold json_Unmarshal_response, bind, emit, ret; cbn [app];
  let res1 := fresh "res1" in
  let Hd := fresh "Hd" in
  destruct (json_decode_response _ (delivers _) _) as [res1 [?|]] eqn:Hd; [fin|];
  destruct (response.Ok res1); fin.

(** Splits a conjunction without looking into definitions. *)
Ltac conjuncts := repeat match goal with |- _ /\ _ => split end.

Ltac fin_zero := unfold ret; cbn [fst negb]; congruence.

Ltac crush_In :=
  repeat match goal with
         | H : _ \/ _ |- _ => destruct H
         | H : False |- _ => destruct H
         end;
  subst.

Ltac fin_sends :=
  unfold ret; cbn [snd fst negb app requests encodings length In];
  repeat apply conj; intros; crush_In;
  cbn [Request.Method Request.URL Request.Header Request.Body];
  repeat apply conj;
  first [ lia | reflexivity | assumption
        | apply (proj1 (token_header _)) | apply (proj2 (token_header _)) ].


(** X2. Every error an operation returns comes with the zero value of its
    result type: nil, false or the empty struct. *)
Theorem operations_return_zero_on_error `{GoLib} (cb : cryptobot) :
  zero_on_error (GetMe cb) [] /\
  (forall in_, zero_on_error (CreateInvoice cb in_) Invoice.zero) /\
  (forall id, zero_on_error (DeleteInvoice cb id) false) /\
  (forall inop, zero_on_error (GetInvoices cb inop) []) /\
  (forall nc, zero_on_error (CreateCheck cb nc) Check.zero) /\
  (forall id, zero_on_error (DeleteCheck cb id) false) /\
  (forall ckops, zero_on_error (GetChecks cb ckops) []) /\
  (forall nt, zero_on_error (CreateTransfer cb nt) Transfer.zero) /\
  (forall trops, zero_on_error (GetTransfers cb trops) []) /\
  zero_on_error (GetBalance cb) [] /\
  zero_on_error (GetExchangeRates cb) [] /\
  (forall asops, zero_on_error (GetAppStats cb asops) AppStats.zero).
Proof.
  repeat apply conj; intros; intros tr r e.
  - unfold GetMe. op_cases fin_zero.
  - unfold CreateInvoice. op_cases fin_zero.
  - unfold DeleteInvoice. op_cases fin_zero.
  - unfold GetInvoices. op_cases fin_zero.
  - unfold CreateCheck. op_cases fin_zero.
  - unfold DeleteCheck. op_cases fin_zero.
  - unfold GetChecks. op_cases fin_zero.
  - unfold CreateTransfer. op_cases fin_zero.
  - unfold GetTransfers. op_cases fin_zero.
  - unfold GetBalance. op_cases fin_zero.
  - unfold GetExchangeRates. op_cases fin_zero.
  - unfold GetAppStats. op_cases fin_zero.
Qed.

Lemma operations_return_zero_on_error_witness :
  fst (@CreateCheck Demo.lib (Demo.cb Demo.refusal)
         {| NewCheck.CryptoAsset := TON; NewCheck.Amount := "0.01";
            NewCheck.PinToUserID := 123123; NewCheck.PinToUsername := "" |} [])
  = (Check.zero, Some (errors_New Demo.unauthorized)) /\
  Check.zero = Check.zero.
Proof.
  split; [vm_compute; reflexivity|].
  refine (proj1 (proj2 (proj2 (proj2 (proj2
            (@operations_return_zero_on_error Demo.lib (Demo.cb Demo.refusal))))))
            {| NewCheck.CryptoAsset := TON; NewCheck.Amount := "0.01";
               NewCheck.PinToUserID := 123123; NewCheck.PinToUsername := "" |}
            [] Check.zero (errors_New Demo.unauthorized) _).
  vm_compute. reflexivity.
Defined.

(** X3. The six operations that validate their argument return the error of
    the validation function as it is, with the zero value, and leave the
    trace as it was: nothing is encoded, nothing is sent. *)
Theorem operations_validate_first `{GoLib} (cb : cryptobot) :
  validates_first validateNewInvoice (CreateInvoice cb) Invoice.zero /\
  validates_first validateInvoiceOptions (GetInvoices cb) [] /\
  validates_first validateNewCheck (CreateCheck cb) Check.zero /\
  validates_first validateCheckOptions (GetChecks cb) [] /\
  validates_first validateNewTransfer (CreateTransfer cb) Transfer.zero /\
  validates_first validateTransferOptions (GetTransfers cb) [].
Proof.
  repeat apply conj; intros x e tr Hv.
  - unfold CreateInvoice. rewrite Hv. reflexivity.
  - unfold GetInvoices. rewrite Hv. reflexivity.
  - unfold CreateCheck. rewrite Hv. reflexivity.
  - unfold GetChecks. rewrite Hv. reflexivity.
  - unfold CreateTransfer. rewrite Hv. reflexivity.
  - unfold GetTransfers. rewrite Hv. reflexivity.
Qed.

Lemma operations_validate_first_witness :
  @CreateTransfer Demo.lib (Demo.cb Demo.done_true) NewTransfer.zero []
  = ((Transfer.zero,
      Some (errors_Join [errors_New "CryptoAsset cannot be empty";
                         errors_New "SpendID cannot be empty"])), []).
Proof.
  refine (proj1 (proj2 (proj2 (proj2 (proj2
            (@operations_validate_first Demo.lib (Demo.cb Demo.done_true))))))
            NewTransfer.zero _ [] _).
  reflexivity.
Defined.

(** X4. An operation sends at most one request. The request it sends has
    the method and the path of the table below, the token under
    [Crypto-Pay-Api-Token], the content type [application/json], and for
    body the encoding of its argument (no body for the three reads without
    argument); nothing else is encoded. The three creations go out as GET
    with a body. *)
Theorem operations_send_one_request `{GoLib} (cb : cryptobot) :
  sends cb (GetMe cb) "GET" "/getMe" None /\
  (forall in_, sends cb (CreateInvoice cb in_) "GET" "/createInvoice"
                 (Some (NewInvoice_MarshalJSON in_))) /\
  (forall id, sends cb (DeleteInvoice cb id) "POST" "/deleteInvoice"
                (Some (JObject [("invoice_id", JNumber id)]))) /\
  (forall inop, sends cb (GetInvoices cb inop) "POST" "/getInvoices"
                  (Some (InvoiceOptions_MarshalJSON inop))) /\
  (forall nc, sends cb (CreateCheck cb nc) "GET" "/createCheck"
                (Some (NewCheck.Marshal nc))) /\
  (forall id, sends cb (DeleteCheck cb id) "POST" "/deleteCheck"
                (Some (JObject [("check_id", JNumber id)]))) /\
  (forall ckops, sends cb (GetChecks cb ckops) "POST" "/getChecks"
                   (Some (CheckOptions_MarshalJSON ckops))) /\
  (forall nt, sends cb (CreateTransfer cb nt) "GET" "/transfer"
                (Some (NewTransfer.Marshal nt))) /\
  (forall trops, sends cb (GetTransfers cb trops) "POST" "/getTransfers"
                   (Some (TransferOptions_MarshalJSON trops))) /\
  sends cb (GetBalance cb) "GET" "/getBalance" None /\
  sends cb (GetExchangeRates cb) "GET" "/getExchangeRates" None /\
  (forall asops, sends cb (GetAppStats cb asops) "POST" "/getStats"
                   (Some (AppStatsOptions.MarshalJSON asops))).
Proof.
  conjuncts; intros; unfold sends.
  - unfold GetMe. op_cases fin_sends.
  - unfold CreateInvoice. op_cases fin_sends.
  - unfold DeleteInvoice. op_cases fin_sends.
  - unfold GetInvoices. op_cases fin_sends.
  - unfold CreateCheck. op_cases fin_sends.
  - unfold DeleteCheck. op_cases fin_sends.
  - unfold GetChecks. op_cases fin_sends.
  - unfold CreateTransfer. op_cases fin_sends.
  - unfold GetTransfers. op_cases fin_sends.
  - unfold GetBalance. op_cases fin_sends.
  - unfold GetExchangeRates. op_cases fin_sends.
  - unfold GetAppStats. op_cases fin_sends.
Qed.

Lemma operations_send_one_request_witness :
  let sent := requests (snd (@DeleteCheck Demo.lib (Demo.cb Demo.done_true) 9 [])) in
  let req := hd {| Request.Method := ""; Request.URL := ""; Request.Header := (∅ : Header);
                   Request.Body := http_NoBody |} sent in
  In req sent /\
  Request.Method req = "POST" /\
  @url_JoinPath Demo.lib (endpoint (Demo.cb Demo.done_true)) "/deleteCheck"
    = (Request.URL req, None) /\
  Header_Get (Request.Header req) "Crypto-Pay-API-Token" = "API_TOKEN".
Proof.
  intros sent req.
  assert (Hin : In req sent) by (vm_compute; left; reflexivity).
  split; [exact Hin|].
  pose proof (proj2 (proj2 (proj1 (proj2 (proj2 (proj2 (proj2 (proj2
                (@operations_send_one_request Demo.lib (Demo.cb Demo.done_true)))))))
                9)) req Hin) as (Hm & Hu & Ht & _).
  split; [exact Hm|]. split; [exact Hu|exact Ht].
Defined.



(** ** More on the webhook verifier *)

(** X6. With a signature header present, a body whose read fails gives the
    read error wrapped as the body-read failure and the zero update; this
    does not depend on the bytes delivered before the failure nor on the
    signature, and nothing is decoded. *)
Theorem HandleUpdate_body_read_failure `{GoLib} (cb : cryptobot) (r : Request.t)
    (tr : list event) (e : error) :
  Header_Get (Request.Header r) "crypto-pay-api-signature" <> "" ->
  fails (Request.Body r) = Some e ->
  HandleUpdate cb r tr =
    ((Update.zero, Some (BodyReadError e)), tr ++ [io_ReadAll_event (Request.Body r)]) /\
  decodings (snd (HandleUpdate cb r [])) = [].
Proof.
  intros Hsig Hf. rewrite !HandleUpdate_cases, Hf.
  destruct (Z.eqb_spec (len (Header_Get (Request.Header r) "crypto-pay-api-signature")) 0)
    as [E|_]; [apply len_zero in E; contradiction|].
  split; reflexivity.
Qed.

Lemma HandleUpdate_body_read_failure_witness :
  @HandleUpdate Demo.lib (Demo.cb [])
    (Demo.webhook [webhook_signature "API_TOKEN" Demo.update1]
       {| delivers := Demo.update1; fails := Some (lib_error "unexpected EOF") |}) []
  = ((Update.zero, Some (BodyReadError (lib_error "unexpected EOF"))),
     [io_ReadAll_event
        {| delivers := Demo.update1; fails := Some (lib_error "unexpected EOF") |}]).
Proof.
  refine (proj1 (@HandleUpdate_body_read_failure Demo.lib (Demo.cb [])
            (Demo.webhook [webhook_signature "API_TOKEN" Demo.update1]
               {| delivers := Demo.update1; fails := Some (lib_error "unexpected EOF") |})
            [] (lib_error "unexpected EOF") _ _)).
  - vm_compute. discriminate.
  - reflexivity.
Defined.

(** X7. [HandleUpdate] sends nothing and encodes nothing; it reads the body
    once when the signature header has a non-empty value and not at all
    otherwise; it decodes at most once, and then the bytes it read. *)
Theorem HandleUpdate_effects `{GoLib} (cb : cryptobot) (r : Request.t) :
  let tr := snd (HandleUpdate cb r []) in
  requests tr = [] /\
  encodings tr = [] /\
  reads tr =
    (if (len (Header_Get (Request.Header r) "crypto-pay-api-signature") =? 0)%Z
     then [] else [Request.Body r]) /\
  (decodings tr = [] \/ decodings tr = [delivers (Request.Body r)]).
Proof.
  cbv zeta. rewrite HandleUpdate_cases.
  destruct (len _ =? 0)%Z; [cbn; auto|].
  destruct (fails (Request.Body r)); [cbn; auto|].
  destruct (String.eqb _ _); cbn; auto.
Qed.

(** X8. The result and the trace of [HandleUpdate] depend on the request
    only through the first value of the signature header and the body: two
    requests that agree on these are treated alike, so the method, the URL,
    the further values of the signature header and every other header play
    no part. *)
Theorem HandleUpdate_ignores_the_rest `{GoLib} (cb : cryptobot) (r r' : Request.t)
    (tr : list event) :
  head (default [] (Request.Header r !! signature_key)) =
  head (default [] (Request.Header r' !! signature_key)) ->
  Request.Body r = Request.Body r' ->
  HandleUpdate cb r tr = HandleUpdate cb r' tr.
Proof.
  intros Hh Hb. rewrite !HandleUpdate_cases, !Header_Get_signature, Hb.
  assert (E : match Request.Header r !! signature_key with
              | Some (v :: _) => v | _ => "" end =
              match Request.Header r' !! signature_key with
              | Some (v :: _) => v | _ => "" end).
  { destruct (Request.Header r !! signature_key) as [[|v vs]|];
      destruct (Request.Header r' !! signature_key) as [[|v' vs']|];
      cbn in Hh; try discriminate Hh; try reflexivity.
    injection Hh as ->. reflexivity. }
  rewrite E. reflexivity.
Qed.

Lemma HandleUpdate_ignores_the_rest_witness :
  @HandleUpdate Demo.lib (Demo.cb [])
    {| Request.Method := "PUT"; Request.URL := "/elsewhere";
       Request.Header := {[ signature_key := ["00"; "11"]; "User-Agent" := ["curl"] ]};
       Request.Body := bytes_NewReader Demo.update1 |} []
  = @HandleUpdate Demo.lib (Demo.cb [])
      (Demo.webhook ["00"] (bytes_NewReader Demo.update1)) [].
Proof.
  refine (@HandleUpdate_ignores_the_rest Demo.lib (Demo.cb []) _ _ [] _ _).
  - vm_compute. reflexivity.
  - reflexivity.
Defined.

Lemma byte_to_Z_bounds (c : byte) : 0 <= byte_to_Z c < 256.
Proof.
  unfold byte_to_Z. pose proof (Byte.to_N_bounded c) as Hb.
  split; [apply N2Z.is_nonneg|]. apply N2Z.inj_le in Hb. simpl Z.of_N in Hb. lia.
Qed.

Lemma hex_digit_lower (z : Z) : 0 <= z < 16 -> is_lower_hex (hex_digit z) = true.
Proof.
  intros Hz.
  assert (Hn : (Z.to_nat z < 16)%nat) by lia.
  unfold hex_digit. generalize dependent (Z.to_nat z). clear z Hz. intros n Hn.
  do 16 (destruct n as [|n]; [reflexivity|]). lia.
Qed.

Lemma fmt_Sprintf_x_lower (b : list byte) :
  forallb is_lower_hex (list_ascii_of_string (fmt_Sprintf_x b)) = true.
Proof.
  induction b as [|c b IH]; [reflexivity|].
  pose proof (byte_to_Z_bounds c) as Hc.
  cbn [fmt_Sprintf_x list_ascii_of_string forallb].
  rewrite !hex_digit_lower, IH; [reflexivity| |].
  - apply Z.mod_pos_bound. lia.
  - split; [apply Z.div_pos; lia | apply Z.div_lt_upper_bound; lia].
Qed.

(** X9. The comparison of the signature is exact: a header value that is
    not 64 bytes long, or that holds a byte other than a digit or a
    lower-case letter from a to f (upper-case hexadecimal, say), is refused
    with the verification failure once the body is read, whatever the body
    and the token, and the body is not decoded. *)
Theorem HandleUpdate_refuses_malformed_signature `{GoLib} (cb : cryptobot)
    (r : Request.t) (tr : list event) :
  let sig := Header_Get (Request.Header r) "crypto-pay-api-signature" in
  sig <> "" ->
  fails (Request.Body r) = None ->
  len sig <> 64 \/ forallb is_lower_hex (list_ascii_of_string sig) = false ->
  HandleUpdate cb r tr =
    ((Update.zero, Some SignatureMismatchError), tr ++ [io_ReadAll_event (Request.Body r)]).
Proof.
  intros sig Hne Hf Hbad. rewrite HandleUpdate_cases. fold sig. rewrite Hf.
  destruct (Z.eqb_spec (len sig) 0) as [E|_]; [apply len_zero in E; contradiction|].
  destruct (String.eqb_spec sig (webhook_signature (token cb) (delivers (Request.Body r))))
    as [E|_]; [|reflexivity].
  exfalso. destruct Hbad as [Hl|Hx].
  - apply Hl. rewrite E. apply webhook_signature_len.
  - rewrite E in Hx. unfold webhook_signature, hex in Hx.
    rewrite fmt_Sprintf_x_lower in Hx. discriminate Hx.
Qed.

Lemma HandleUpdate_refuses_malformed_signature_witness :
  @HandleUpdate Demo.lib (Demo.cb [])
    (Demo.webhook ["03772F4AA30C36C34C9D19FC9C75A38FCA5E4566E88DAD72BB1C299B3B941EB1"]
                  (bytes_NewReader Demo.update1)) []
  = ((Update.zero, Some SignatureMismatchError),
     [io_ReadAll_event (bytes_NewReader Demo.update1)]).
Proof.
  refine (@HandleUpdate_refuses_malformed_signature Demo.lib (Demo.cb [])
            (Demo.webhook ["03772F4AA30C36C34C9D19FC9C75A38FCA5E4566E88DAD72BB1C299B3B941EB1"]
                          (bytes_NewReader Demo.update1)) [] _ _ _).
  - vm_compute. discriminate.
  - reflexivity.
  - right. vm_compute. reflexivity.
Defined.

(** ** What the validation functions accept *)

Ltac bool_cases :=
  repeat match goal with
         | |- context [(?a <? ?b)%Z] => destruct (Z.ltb_spec a b)
         | |- context [(?a =? ?b)%Z] => destruct (Z.eqb_spec a b)
         | |- context [String.eqb ?a ?b] => destruct (String.eqb_spec a b)
         | |- context [(?a =? ?b)%nat] => destruct (Nat.eqb_spec a b)
         end.

Ltac lens :=
  repeat match goal with
         | H : len _ = 0 |- _ => apply len_zero in H
         | H : len _ <> 0 |- _ => rewrite len_zero in H
         | H : length _ = 0%nat |- _ => apply length_zero_iff_nil in H
         | H : length _ <> 0%nat |- _ => rewrite length_zero_iff_nil in H
         end.

(** X10. The three validation functions of the listing options accept
    exactly the options whose offset is not negative and whose count is
    between 0 and 1000, 0 standing for no count (and, for transfers, whose
    spend identifier has at most 64 bytes); 1 and 1000 are accepted, 1001
    and every negative count are refused. *)
Theorem options_accepted_iff :
  (forall v, validateInvoiceOptions v = None <->
     0 <= InvoiceOptions.Offset v /\ 0 <= InvoiceOptions.Count v <= 1000) /\
  (forall v, validateCheckOptions v = None <->
     0 <= CheckOptions.Offset v /\ 0 <= CheckOptions.Count v <= 1000) /\
  (forall v, validateTransferOptions v = None <->
     len (TransferOptions.SpendID v) <= 64 /\
     0 <= TransferOptions.Offset v /\ 0 <= TransferOptions.Count v <= 1000).
Proof.
  conjuncts; intros v.
  - unfold validateInvoiceOptions. bool_cases; cbn; split;
      first [ discriminate | reflexivity | lia | intros; exfalso; lia ].
  - unfold validateCheckOptions. bool_cases; cbn; split;
      first [ discriminate | reflexivity | lia | intros; exfalso; lia ].
  - unfold validateTransferOptions. bool_cases; cbn; split;
      first [ discriminate | reflexivity | lia | intros; exfalso; lia ].
Qed.

(** X11. [validateNewCheck] accepts exactly the checks with an asset and an
    amount; [validateNewTransfer] exactly the transfers with an asset, a
    spend identifier of 1 to 64 bytes and a comment of at most 1024 bytes.
    The user identifier, the pinned user and the amount of a transfer are
    never looked at. *)
Theorem check_and_transfer_accepted_iff :
  (forall v, validateNewCheck v = None <->
     NewCheck.CryptoAsset v <> "" /\ NewCheck.Amount v <> "") /\
  (forall v, validateNewTransfer v = None <->
     NewTransfer.CryptoAsset v <> "" /\ NewTransfer.SpendID v <> "" /\
     len (NewTransfer.SpendID v) <= 64 /\ len (NewTransfer.Comment v) <= 1024).
Proof.
  conjuncts; intros v.
  - unfold validateNewCheck. bool_cases; cbn; lens; split;
      first [ discriminate | reflexivity | intros; exfalso; tauto | tauto ].
  - unfold validateNewTransfer. bool_cases; cbn; lens; split;
      first [ discriminate | reflexivity | intros; exfalso; intuition lia | intuition lia ].
Qed.

Lemma join_or_nil_None_iff (errs : list error) : join_or_nil errs = None <-> errs = [].
Proof. destruct errs; cbn; split; intros E; try reflexivity; discriminate E. Qed.

Lemma violations_cons_nil {A} (violated : A -> bool) (msg : string) (rules : list (rule A))
    (x : A) :
  violations ((violated, msg) :: rules) x = [] <->
  violated x = false /\ violations rules x = [].
Proof.
  cbn [violations]. destruct (violated x); split.
  - discriminate.
  - intros [E _]. discriminate E.
  - auto.
  - intros [_ E]. exact E.
Qed.

Lemma len_eqb_false (s : string) : (len s =? 0)%Z = false <-> s <> "".
Proof. rewrite Z.eqb_neq, len_zero. reflexivity. Qed.

Lemma guarded_false (a b : bool) (P Q : Prop) :
  (a = true <-> P) -> (b = false <-> Q) -> (a && b = false <-> (P -> Q)).
Proof.
  intros [Ha1 Ha2] [Hb1 Hb2]. destruct a, b; cbn; split; intros E.
  - discriminate E.
  - discriminate (Hb2 (E (Ha1 eq_refl))).
  - intros _. apply Hb1. reflexivity.
  - reflexivity.
  - intros HP. discriminate (Ha2 HP).
  - reflexivity.
  - intros HP. discriminate (Ha2 HP).
  - reflexivity.
Qed.

Lemma expiry_false (e bound : Z) :
  1 <= bound ->
  negb (e =? 0)%Z && ((e <? 1)%Z || (bound <? e)%Z) = false <-> 0 <= e <= bound.
Proof.
  intros Hb.
  destruct (Z.eqb_spec e 0), (Z.ltb_spec e 1), (Z.ltb_spec bound e); cbn;
    split; intros; first [ reflexivity | discriminate | lia ].
Qed.

(** X12. [validateNewInvoice] accepts exactly the invoices with a currency
    type and an amount, with an asset when the type is crypto, with accepted
    assets and a fiat code when the type is fiat, with a button URL when a
    button is named, with a payload of at most 4096 bytes and with an expiry
    that is 0 or between 1 and 2678400. A currency type that is neither
    crypto nor fiat is accepted as it is, and the description and the hidden
    message are not bounded. *)
Theorem invoice_accepted_iff (v : NewInvoice.t) :
  validateNewInvoice v = None <->
  NewInvoice.CurrencyType v <> "" /\
  (NewInvoice.CurrencyType v = Crypto -> NewInvoice.CryptoAsset v <> "") /\
  (NewInvoice.CurrencyType v = Fiat ->
     NewInvoice.AcceptedCryptoAssets v <> [] /\ NewInvoice.Fiat v <> "") /\
  NewInvoice.Amount v <> "" /\
  (NewInvoice.PaidBtnName v <> "" -> NewInvoice.PaidBtnUrl v <> "") /\
  len (NewInvoice.Payload v) <= 4096 /\
  0 <= NewInvoice.ExpiresIn v <= 2678400.
Proof.
  rewrite validateNewInvoice_spec, join_or_nil_None_iff.
  unfold NewInvoice_rules. rewrite !violations_cons_nil. cbv beta.
  rewrite !len_eqb_false.
  rewrite (guarded_false _ _ _ _ (String.eqb_eq _ Crypto) (len_eqb_false _)).
  rewrite (guarded_false (String.eqb (NewInvoice.CurrencyType v) Fiat)
             (length (NewInvoice.AcceptedCryptoAssets v) =? 0)%nat
             (NewInvoice.CurrencyType v = Fiat) (NewInvoice.AcceptedCryptoAssets v <> [])).
  2: apply String.eqb_eq.
  2: { rewrite Nat.eqb_neq, length_zero_iff_nil. reflexivity. }
  rewrite (guarded_false _ _ _ _ (String.eqb_eq _ Fiat) (len_eqb_false _)).
  rewrite (guarded_false (negb (len (NewInvoice.PaidBtnName v) =? 0)%Z)
             (len (NewInvoice.PaidBtnUrl v) =? 0)%Z
             (NewInvoice.PaidBtnName v <> "") (NewInvoice.PaidBtnUrl v <> "")).
  2: { rewrite negb_true_iff. apply len_eqb_false. }
  2: apply len_eqb_false.
  rewrite Z.ltb_ge, expiry_false by lia.
  cbn [violations]. tauto.
Qed.

(** ** More on the encoding of requests *)

Lemma assoc_absent (k : string) (fs : list field) :
  k ∉ map key fs -> assoc k (encode_fields fs) = None.
Proof.
  induction fs as [|f fs IH]; intros Hk; [reflexivity|].
  cbn [encode_fields]. cbn [map] in Hk. apply not_elem_of_cons in Hk as [Hne Hk].
  destruct (omitempty f && isEmptyValue (value f)); [auto|].
  cbn [assoc]. destruct (String.eqb_spec k (key f)); [contradiction|auto].
Qed.

(** A key of a struct with distinct keys is sent exactly when its field is
    not both tagged [omitempty] and empty, and then with the value of the
    field. *)
Lemma wire_field_encode_struct (k : string) (fs : list field) :
  NoDup (map key fs) ->
  wire_field k (encode_struct fs) =
  match List.find (fun f => String.eqb k (key f)) fs with
  | Some f => if omitempty f && isEmptyValue (value f) then None else Some (value f)
  | None => None
  end.
Proof.
  unfold encode_struct, wire_field.
  induction fs as [|f fs IH]; intros Hnd; [reflexivity|].
  cbn [map] in Hnd. apply NoDup_cons in Hnd as [Hnin Hnd].
  cbn [encode_fields List.find].
  destruct (String.eqb_spec k (key f)) as [->|Hne].
  - destruct (omitempty f && isEmptyValue (value f)).
    + apply assoc_absent. exact Hnin.
    + cbn [assoc]. rewrite String.eqb_refl. reflexivity.
  - destruct (omitempty f && isEmptyValue (value f)); [apply IH, Hnd|].
    cbn [assoc]. destruct (String.eqb_spec k (key f)); [contradiction|]. apply IH, Hnd.
Qed.

Lemma keys_sublist (fs : list field) :
  sublist (map fst (encode_fields fs)) (map key fs).
Proof.
  induction fs as [|f fs IH]; [constructor|].
  cbn [encode_fields map].
  destruct (omitempty f && isEmptyValue (value f)).
  - apply sublist_cons. exact IH.
  - cbn [map fst]. apply sublist_skip. exact IH.
Qed.

Lemma encode_struct_keys (fs : list field) :
  NoDup (map key fs) ->
  NoDup (keys (encode_struct fs)) /\ sublist (keys (encode_struct fs)) (map key fs).
Proof.
  intros Hnd. unfold encode_struct, keys. pose proof (keys_sublist fs) as Hs.
  split; [|exact Hs]. exact (sublist_NoDup _ _ Hnd Hs).
Qed.

Ltac distinct_keys := cbn [map key]; apply (bool_decide_unpack _); vm_compute; exact I.

(** X13. No key is sent twice, and the keys are sent in the order of the
    struct tags: the keys of every encoded request are a duplicate-free
    subsequence of the keys its struct declares. *)
Theorem encoded_keys_distinct_and_ordered :
  (forall v, NoDup (keys (NewInvoice_MarshalJSON v)) /\
     sublist (keys (NewInvoice_MarshalJSON v))
       ["currency_type"; "asset"; "fiat"; "accepted_assets"; "amount"; "description";
        "hidden_message"; "paid_btn_name"; "paid_btn_url"; "payload"; "allow_comments";
        "allow_anonymous"; "expires_in"]) /\
  (forall v, NoDup (keys (InvoiceOptions_MarshalJSON v)) /\
     sublist (keys (InvoiceOptions_MarshalJSON v))
       ["asset"; "fiat"; "invoice_ids"; "status"; "offset"; "count"]) /\
  (forall v, NoDup (keys (NewCheck.Marshal v)) /\
     sublist (keys (NewCheck.Marshal v))
       ["asset"; "amount"; "pin_to_user_id"; "pin_to_username"]) /\
  (forall v, NoDup (keys (CheckOptions_MarshalJSON v)) /\
     sublist (keys (CheckOptions_MarshalJSON v))
       ["asset"; "check_ids"; "status"; "offset"; "count"]) /\
  (forall v, NoDup (keys (NewTransfer.Marshal v)) /\
     sublist (keys (NewTransfer.Marshal v))
       ["user_id"; "asset"; "amount"; "spend_id"; "comment"; "disable_send_notification"]) /\
  (forall v, NoDup (keys (TransferOptions_MarshalJSON v)) /\
     sublist (keys (TransferOptions_MarshalJSON v))
       ["asset"; "transfer_ids"; "spend_id"; "offset"; "count"]) /\
  (forall v, keys (AppStatsOptions.MarshalJSON v) = ["start_at"; "end_at"]).
Proof.
  split; [|split; [|split; [|split; [|split; [|split]]]]]; intros v.
  - unfold NewInvoice_MarshalJSON, tempNewInvoice.Marshal.
    refine (encode_struct_keys _ _). distinct_keys.
  - unfold InvoiceOptions_MarshalJSON, tempInOps.Marshal.
    refine (encode_struct_keys _ _). distinct_keys.
  - unfold NewCheck.Marshal. refine (encode_struct_keys _ _). distinct_keys.
  - unfold CheckOptions_MarshalJSON, tempCheckOps.Marshal.
    refine (encode_struct_keys _ _). distinct_keys.
  - unfold NewTransfer.Marshal. refine (encode_struct_keys _ _). distinct_keys.
  - unfold TransferOptions_MarshalJSON, tempTrOps.Marshal.
    refine (encode_struct_keys _ _). distinct_keys.
  - reflexivity.
Qed.

(** Looks a key up in an encoded struct. *)
Ltac lookup_key :=
  rewrite wire_field_encode_struct by distinct_keys;
  simpl (List.find _ _);
  cbn [key omitempty value isEmptyValue andb];
  try reflexivity.

(** X14. The fields without [omitempty] are sent whatever they hold, with
    the value of the struct: the currency type, the amount and the two flags
    of an invoice; the asset and the amount of a check; the user, the asset,
    the amount, the spend identifier and the notification flag of a
    transfer; the two dates of the statistics options. An empty amount is
    sent as the empty string. *)
Theorem required_fields_always_sent :
  (forall v,
     wire_field "currency_type" (NewInvoice_MarshalJSON v)
       = Some (JString (NewInvoice.CurrencyType v)) /\
     wire_field "amount" (NewInvoice_MarshalJSON v) = Some (JString (NewInvoice.Amount v)) /\
     wire_field "allow_comments" (NewInvoice_MarshalJSON v)
       = Some (JBool (NewInvoice.AllowComments v)) /\
     wire_field "allow_anonymous" (NewInvoice_MarshalJSON v)
       = Some (JBool (NewInvoice.AllowAnonymous v))) /\
  (forall v,
     wire_field "asset" (NewCheck.Marshal v) = Some (JString (NewCheck.CryptoAsset v)) /\
     wire_field "amount" (NewCheck.Marshal v) = Some (JString (NewCheck.Amount v))) /\
  (forall v,
     wire_field "user_id" (NewTransfer.Marshal v) = Some (JNumber (NewTransfer.UserID v)) /\
     wire_field "asset" (NewTransfer.Marshal v) = Some (JString (NewTransfer.CryptoAsset v)) /\
     wire_field "amount" (NewTransfer.Marshal v) = Some (JString (NewTransfer.Amount v)) /\
     wire_field "spend_id" (NewTransfer.Marshal v) = Some (JString (NewTransfer.SpendID v)) /\
     wire_field "disable_send_notification" (NewTransfer.Marshal v)
       = Some (JBool (NewTransfer.DisableSendNotification v))) /\
  (forall v,
     wire_field "start_at" (AppStatsOptions.MarshalJSON v)
       = Some (JString (time.Format_RFC3339 (AppStatsOptions.StartAt v))) /\
     wire_field "end_at" (AppStatsOptions.MarshalJSON v)
       = Some (JString (time.Format_RFC3339 (AppStatsOptions.EndAt v)))).
Proof.
  split; [|split; [|split]]; intros v.
  - unfold NewInvoice_MarshalJSON, tempNewInvoice.Marshal. conjuncts; lookup_key.
  - unfold NewCheck.Marshal. conjuncts; lookup_key.
  - unfold NewTransfer.Marshal. conjuncts; lookup_key.
  - unfold AppStatsOptions.MarshalJSON. conjuncts; lookup_key.
Qed.

(** X15. The optional scalar fields are sent exactly when they are set: the
    offset and the count of the three listing options only when not 0, so a
    zero offset or count leaves the choice to the server; likewise the
    expiry of an invoice, the pinned user of a check and the comment of a
    transfer. *)
Theorem optional_fields_sent_when_set :
  (forall v,
     wire_field "offset" (InvoiceOptions_MarshalJSON v) =
       (if (InvoiceOptions.Offset v =? 0)%Z then None
        else Some (JNumber (InvoiceOptions.Offset v))) /\
     wire_field "count" (InvoiceOptions_MarshalJSON v) =
       (if (InvoiceOptions.Count v =? 0)%Z then None
        else Some (JNumber (InvoiceOptions.Count v)))) /\
  (forall v,
     wire_field "offset" (CheckOptions_MarshalJSON v) =
       (if (CheckOptions.Offset v =? 0)%Z then None
        else Some (JNumber (CheckOptions.Offset v))) /\
     wire_field "count" (CheckOptions_MarshalJSON v) =
       (if (CheckOptions.Count v =? 0)%Z then None
        else Some (JNumber (CheckOptions.Count v)))) /\
  (forall v,
     wire_field "offset" (TransferOptions_MarshalJSON v) =
       (if (TransferOptions.Offset v =? 0)%Z then None
        else Some (JNumber (TransferOptions.Offset v))) /\
     wire_field "count" (TransferOptions_MarshalJSON v) =
       (if (TransferOptions.Count v =? 0)%Z then None
        else Some (JNumber (TransferOptions.Count v)))) /\
  (forall v,
     wire_field "expires_in" (NewInvoice_MarshalJSON v) =
       (if (NewInvoice.ExpiresIn v =? 0)%Z then None
        else Some (JNumber (NewInvoice.ExpiresIn v)))) /\
  (forall v,
     wire_field "pin_to_user_id" (NewCheck.Marshal v) =
       (if (NewCheck.PinToUserID v =? 0)%Z then None
        else Some (JNumber (NewCheck.PinToUserID v)))) /\
  (forall v,
     wire_field "comment" (NewTransfer.Marshal v) =
       (if (len (NewTransfer.Comment v) =? 0)%Z then None
        else Some (JString (NewTransfer.Comment v)))).
Proof.
  split; [|split; [|split; [|split; [|split]]]]; intros v.
  - unfold InvoiceOptions_MarshalJSON, tempInOps.Marshal. conjuncts; lookup_key.
  - unfold CheckOptions_MarshalJSON, tempCheckOps.Marshal. conjuncts; lookup_key.
  - unfold TransferOptions_MarshalJSON, tempTrOps.Marshal. conjuncts; lookup_key.
  - unfold NewInvoice_MarshalJSON, tempNewInvoice.Marshal. lookup_key.
  - unfold NewCheck.Marshal. lookup_key.
  - unfold NewTransfer.Marshal. lookup_key.
Qed.

(** ** List fields, read back *)

Lemma split_commas_not_nil (s : string) : split_commas s <> [].
Proof.
  induction s as [|c s IH]; cbn [split_commas]; [discriminate|].
  destruct (Ascii.eqb c ","); [discriminate|].
  destruct (split_commas s); discriminate.
Qed.

Lemma split_commas_token (x rest : string) :
  comma_free x = true ->
  split_commas (x ++ String "," rest) = x :: split_commas rest.
Proof.
  induction x as [|c x IH]; intros Hx.
  - cbn. reflexivity.
  - unfold comma_free in Hx. cbn [list_ascii_of_string forallb] in Hx.
    apply andb_true_iff in Hx as [Hc Hx].
    change (String c x ++ String "," rest)%string with (String c (x ++ String "," rest)).
    cbn [split_commas]. apply negb_true_iff in Hc. rewrite Hc, (IH Hx). reflexivity.
Qed.

Lemma split_commas_last (x : string) : comma_free x = true -> split_commas x = [x].
Proof.
  induction x as [|c x IH]; intros Hx; [reflexivity|].
  unfold comma_free in Hx. cbn [list_ascii_of_string forallb] in Hx.
  apply andb_true_iff in Hx as [Hc Hx].
  cbn [split_commas]. apply negb_true_iff in Hc. rewrite Hc, (IH Hx). reflexivity.
Qed.

Lemma split_commas_Join (l : list string) :
  l <> [] -> (forall x, In x l -> comma_free x = true) ->
  split_commas (strings_Join l ",") = l.
Proof.
  induction l as [|x l IH]; intros Hne Hall; [contradiction|].
  destruct l as [|y l].
  - cbn [strings_Join]. apply split_commas_last, Hall. left. reflexivity.
  - change (strings_Join (x :: y :: l) ",")
      with (x ++ String "," (strings_Join (y :: l) ","))%string.
    rewrite split_commas_token by (apply Hall; left; reflexivity).
    rewrite IH; [reflexivity|discriminate|].
    intros z Hz. apply Hall. right. exact Hz.
Qed.

Lemma strings_Join_first (x : string) (l : list string) :
  x <> "" -> exists c s, strings_Join (x :: l) "," = String c s.
Proof.
  intros Hx. destruct x as [|c x]; [contradiction|].
  destruct l; cbn; eauto.
Qed.

(** X16. The accepted assets survive the trip: when the list is not empty
    and no asset is empty or holds a comma, the field is sent and splitting
    it at the commas gives the list back, in order. *)
Theorem accepted_assets_round_trip (in_ : NewInvoice.t) :
  NewInvoice.AcceptedCryptoAssets in_ <> [] ->
  (forall a, In a (NewInvoice.AcceptedCryptoAssets in_) -> a <> "" /\ comma_free a = true) ->
  exists s, wire_field "accepted_assets" (NewInvoice_MarshalJSON in_) = Some (JString s) /\
            split_commas s = NewInvoice.AcceptedCryptoAssets in_.
Proof.
  intros Hne Hall. rewrite wire_accepted_assets. cbv zeta.
  exists (strings_Join (NewInvoice.AcceptedCryptoAssets in_) ","). split.
  - destruct (NewInvoice.AcceptedCryptoAssets in_) as [|a l]; [contradiction|].
    destruct (strings_Join_first a l) as (c & s & E);
      [apply Hall; left; reflexivity|].
    unfold types.CryptoAsset in *. rewrite E, len_String. reflexivity.
  - apply split_commas_Join; [exact Hne|]. intros x Hx. apply Hall, Hx.
Qed.

Lemma accepted_assets_round_trip_witness :
  exists s,
    wire_field "accepted_assets"
      (NewInvoice_MarshalJSON
         {| NewInvoice.CurrencyType := Fiat; NewInvoice.CryptoAsset := "";
            NewInvoice.Fiat := USD; NewInvoice.AcceptedCryptoAssets := [USDC; TON];
            NewInvoice.Amount := "50"; NewInvoice.Description := "";
            NewInvoice.HiddenMessage := ""; NewInvoice.PaidBtnName := "";
            NewInvoice.PaidBtnUrl := ""; NewInvoice.Payload := "";
            NewInvoice.AllowComments := true; NewInvoice.AllowAnonymous := false;
            NewInvoice.ExpiresIn := 600 |}) = Some (JString s) /\
    split_commas s = [USDC; TON].
Proof.
  refine (accepted_assets_round_trip _ _ _).
  - discriminate.
  - intros a [<-|[<-|[]]]; split; first [discriminate | reflexivity].
Defined.

Lemma strings_Join_commas (n : nat) (x : string) (rest : list string) :
  strings_Join (repeat "" n ++ x :: rest) "," =
  (commas n ++ strings_Join (x :: rest) ",")%string.
Proof.
  induction n as [|n IH]; [reflexivity|].
  rewrite strings_Join_leading, IH. reflexivity.
Qed.

Lemma split_commas_commas (n : nat) (s : string) :
  split_commas (commas n ++ s) = repeat "" n ++ split_commas s.
Proof.
  induction n as [|n IH]; [reflexivity|].
  change (split_commas (String "," (commas n ++ s)) = "" :: (repeat "" n ++ split_commas s)).
  cbn [split_commas]. change (Ascii.eqb "," ",") with true. cbv iota.
  rewrite IH. reflexivity.
Qed.

Lemma digit_not_comma (k : nat) :
  (k < 10)%nat -> Ascii.eqb (ascii_of_nat (48 + k)) "," = false.
Proof. intros Hk. do 10 (destruct k as [|k]; [reflexivity|]). lia. Qed.

Lemma digits_comma_free (fuel : nat) : forall p acc,
  comma_free acc = true -> comma_free (digits fuel p acc) = true.
Proof.
  induction fuel as [|fuel IH]; intros p acc Hacc; [exact Hacc|].
  cbn [digits].
  assert (Hd : comma_free (String (ascii_of_nat (48 + Z.to_nat (p mod 10))) acc) = true).
  { unfold comma_free in *. cbn [list_ascii_of_string forallb].
    rewrite digit_not_comma, Hacc; [reflexivity|].
    pose proof (Z.mod_pos_bound p 10). lia. }
  destruct (p <? 10)%Z; [exact Hd | apply IH, Hd].
Qed.

Lemma FormatInt_comma_free (i : Z) : comma_free (strconv_FormatInt i) = true.
Proof.
  unfold strconv_FormatInt. destruct (i <? 0)%Z.
  - change ("-" ++ ?s)%string with (String "-" s).
    unfold comma_free. cbn [list_ascii_of_string forallb].
    apply andb_true_iff. split; [reflexivity|]. apply digits_comma_free. reflexivity.
  - apply digits_comma_free. reflexivity.
Qed.

(** What the three options encoders put under the key of a non-empty
    identifier list, and what splitting it at the commas gives. *)
Lemma ids_field (ids : list Z) :
  ids <> [] ->
  let s := strings_Join (repeat "" (length ids) ++ map strconv_FormatInt ids) "," in
  s = (commas (length ids) ++ strings_Join (map strconv_FormatInt ids) ",")%string /\
  (len s =? 0)%Z = false /\
  split_commas s = repeat "" (length ids) ++ map strconv_FormatInt ids.
Proof.
  intros Hne. destruct ids as [|id ids]; [contradiction|]. cbv zeta.
  assert (E : strings_Join (repeat "" (length (id :: ids)) ++
                            map strconv_FormatInt (id :: ids)) "," =
              (commas (length (id :: ids)) ++
               strings_Join (map strconv_FormatInt (id :: ids)) ",")%string).
  { cbn [map]. apply strings_Join_commas. }
  split; [exact E|]. rewrite E. split.
  - cbn [length commas]. apply len_String.
  - rewrite split_commas_commas, split_commas_Join; [reflexivity|discriminate|].
    intros x Hx. apply in_map_iff in Hx as (i & <- & _). apply FormatInt_comma_free.
Qed.

(** X17. A non-empty identifier list of [n] identifiers is sent as [n]
    commas followed by the identifiers in decimal joined by commas, for the
    invoice, check and transfer options alike; a receiver that splits the
    field at the commas finds [n] empty tokens and then the [n]
    identifiers, in order. *)
Theorem ID_field_read_back :
  (forall v, InvoiceOptions.InvoiceIDs v <> [] ->
     let ids := InvoiceOptions.InvoiceIDs v in
     exists s, wire_field "invoice_ids" (InvoiceOptions_MarshalJSON v) = Some (JString s) /\
       s = (commas (length ids) ++ strings_Join (map strconv_FormatInt ids) ",")%string /\
       split_commas s = repeat "" (length ids) ++ map strconv_FormatInt ids) /\
  (forall v, CheckOptions.CheckIDs v <> [] ->
     let ids := CheckOptions.CheckIDs v in
     exists s, wire_field "check_ids" (CheckOptions_MarshalJSON v) = Some (JString s) /\
       s = (commas (length ids) ++ strings_Join (map strconv_FormatInt ids) ",")%string /\
       split_commas s = repeat "" (length ids) ++ map strconv_FormatInt ids) /\
  (forall v, TransferOptions.TransferIDs v <> [] ->
     let ids := TransferOptions.TransferIDs v in
     exists s, wire_field "transfer_ids" (TransferOptions_MarshalJSON v) = Some (JString s) /\
       s = (commas (length ids) ++ strings_Join (map strconv_FormatInt ids) ",")%string /\
       split_commas s = repeat "" (length ids) ++ map strconv_FormatInt ids).
Proof.
  split; [|split]; intros v Hne ids; subst ids;
    destruct (ids_field _ Hne) as (Hs & Hl & Hsp);
    eexists; (split; [|split; [exact Hs|exact Hsp]]).
  - rewrite wire_invoice_ids. cbv zeta. rewrite Hl. reflexivity.
  - rewrite wire_check_ids. cbv zeta. rewrite Hl. reflexivity.
  - rewrite wire_transfer_ids. cbv zeta. rewrite Hl. reflexivity.
Qed.

Lemma ID_field_read_back_witness :
  exists s,
    wire_field "invoice_ids"
      (InvoiceOptions_MarshalJSON
         {| InvoiceOptions.CryptoAsset := ""; InvoiceOptions.Fiat := "";
            InvoiceOptions.InvoiceIDs := [17; 23]; InvoiceOptions.Status := "";
            InvoiceOptions.Offset := 0; InvoiceOptions.Count := 0 |}) = Some (JString s) /\
    s = ",,17,23" /\
    split_commas s = [""; ""; "17"; "23"].
Proof.
  refine (proj1 ID_field_read_back
            {| InvoiceOptions.CryptoAsset := ""; InvoiceOptions.Fiat := "";
               InvoiceOptions.InvoiceIDs := [17; 23]; InvoiceOptions.Status := "";
               InvoiceOptions.Offset := 0; InvoiceOptions.Count := 0 |} _).
  discriminate.
Defined.


(** ** Examples for the acceptance theorems *)

Lemma options_accepted_iff_witness :
  validateInvoiceOptions
    {| InvoiceOptions.CryptoAsset := USDT; InvoiceOptions.Fiat := "";
       InvoiceOptions.InvoiceIDs := []; InvoiceOptions.Status := "active";
       InvoiceOptions.Offset := 0; InvoiceOptions.Count := 1000 |} = None /\
  validateCheckOptions
    {| CheckOptions.CryptoAsset := USDT; CheckOptions.CheckIDs := [];
       CheckOptions.Status := ""; CheckOptions.Offset := 0; CheckOptions.Count := 1001 |}
    <> None.
Proof.
  split.
  - refine (proj2 (proj1 options_accepted_iff _) _). cbn. lia.
  - intros E. apply (proj1 (proj1 (proj2 options_accepted_iff) _)) in E. cbn in E. lia.
Defined.

Lemma check_and_transfer_accepted_iff_witness :
  validateNewCheck
    {| NewCheck.CryptoAsset := TON; NewCheck.Amount := "0.01";
       NewCheck.PinToUserID := 0; NewCheck.PinToUsername := "" |} = None /\
  validateNewTransfer Demo.transfer_without_amount = None.
Proof.
  split.
  - refine (proj2 (proj1 check_and_transfer_accepted_iff _) _).
    split; discriminate.
  - refine (proj2 (proj2 check_and_transfer_accepted_iff _) _).
    repeat split; first [ discriminate | vm_compute; discriminate ].
Defined.

Lemma invoice_accepted_iff_witness :
  validateNewInvoice
    {| NewInvoice.CurrencyType := "points"; NewInvoice.CryptoAsset := "";
       NewInvoice.Fiat := ""; NewInvoice.AcceptedCryptoAssets := [];
       NewInvoice.Amount := "5"; NewInvoice.Description := "";
       NewInvoice.HiddenMessage := ""; NewInvoice.PaidBtnName := "";
       NewInvoice.PaidBtnUrl := ""; NewInvoice.Payload := "";
       NewInvoice.AllowComments := false; NewInvoice.AllowAnonymous := false;
       NewInvoice.ExpiresIn := 2678400 |} = None /\
  validateNewInvoice Demo.bad_invoice <> None.
Proof.
  split.
  - refine (proj2 (invoice_accepted_iff _) _). cbn.
    repeat split; first [ discriminate | intros E; discriminate E | intros E; contradiction ].
  - intros E. apply (proj1 (invoice_accepted_iff _)) in E.
    destruct E as [E _]. apply E. reflexivity.
Defined.


